(** * DeepSeek prompt connector: a shallow embedding of [deepseek_prompt_node.py]

    The node composes a system prompt and a user message out of four static
    hint tables, posts one chat-completion request and extracts the first
    choice of the answer.  Python values are embedded as follows.

    - [str] is a sequence of Unicode code points, so that [str.strip] can be
      modelled with the exact white-space table of CPython.
    - A [dict] literal is an association list in insertion order
      ([list(d.keys())] is observable through [INPUT_TYPES]).
    - Code that may raise returns in the error monad [sum exn] of ExtLib
      ([inl] is a raised exception, [inr] a returned value).
    - The only effect, a call of [urlopen], is a node of a small interaction
      tree [io], so that "no call was made" is a statement about a value. *)

From Stdlib Require Import List String Ascii NArith ZArith Bool Lia.
From Stdlib Require Import DecimalString DecimalZ DecimalPos PrimFloat.
From ExtLib Require Import Structures.Monad Structures.MonadExc Data.Monads.EitherMonad.
Import ListNotations.
Import MonadNotation.
Local Open Scope monad_scope.
Local Open Scope list_scope.

(** ** Python strings *)

Definition char := N.
Definition str := list char.

(** A source literal; every literal of the module is plain ASCII. *)
Definition lit (s : string) : str := map N_of_ascii (list_ascii_of_string s).

Arguments lit : simpl never.

(** ["\n"] *)
Definition nl : str := [10%N].

Fixpoint str_eqb (a b : str) : bool :=
  match a, b with
  | [], [] => true
  | x :: a', y :: b' => N.eqb x y && str_eqb a' b'
  | _, _ => false
  end.

(** [str.isspace] on one code point: [_PyUnicode_IsWhitespace]. *)
Definition isspace (c : char) : bool :=
  (((0x09 <=? c) && (c <=? 0x0D)) || ((0x1C <=? c) && (c <=? 0x20))
   || (c =? 0x85) || (c =? 0xA0) || (c =? 0x1680)
   || ((0x2000 <=? c) && (c <=? 0x200A))
   || (c =? 0x2028) || (c =? 0x2029) || (c =? 0x202F) || (c =? 0x205F)
   || (c =? 0x3000))%N.

Fixpoint lstrip (s : str) : str :=
  match s with
  | c :: s' => if isspace c then lstrip s' else s
  | [] => []
  end.

Definition rstrip (s : str) : str := rev (lstrip (rev s)).

(** [s.strip()] *)
Definition strip (s : str) : str := rstrip (lstrip s).

(** Truth value of a string: [bool(s)]. *)
Definition truthy (s : str) : bool :=
  match s with [] => false | _ :: _ => true end.

(** [x or ""], for an argument that may be [None]. *)
Definition or_empty (x : option str) : str :=
  match x with
  | Some s => if truthy s then s else []
  | None => []
  end.

(** [str(n)] for an [int]. *)
Definition str_of_int (n : Z) : str := lit (NilZero.string_of_int (Z.to_int n)).

(** Substring test, [needle in hay]. *)
Fixpoint startswith (hay needle : str) {struct needle} : bool :=
  match needle, hay with
  | [], _ => true
  | x :: needle', y :: hay' => N.eqb x y && startswith hay' needle'
  | _ :: _, [] => false
  end.

Fixpoint contains (hay needle : str) : bool :=
  startswith hay needle ||
  match hay with
  | [] => false
  | _ :: hay' => contains hay' needle
  end.

(** ** Values exchanged with [json.dumps] and [json.loads] *)

#[warnings="-register-all"]
Inductive json : Type :=
| JNull
| JBool (b : bool)
| JInt (n : Z)
| JFloat (x : float)
| JStr (s : str)
| JList (items : list json)
| JDict (entries : list (str * json)).

(** ** Exceptions and the error monad

    Every constructor is a subclass of [Exception]; [KeyError] carries the
    key that was looked up.  [IncompleteRead] (of [http.client]) and
    [OSError] (a reset connection, a timeout) are what reading from a
    connection can raise. *)

Inductive exn : Type :=
| ValueError (msg : str)
| RuntimeError (msg : str)
| KeyError (key : json)
| TypeError
| IndexError
| JSONDecodeError
| IncompleteRead
| OSError (text : str).

Definition raising : Type -> Type := sum exn.

#[global] Instance Monad_raising : Monad raising := Monad_either exn.
#[global] Instance Exception_raising : MonadExc exn raising := Exception_either exn.

(** ** Dictionaries *)

Definition dict (V : Type) : Type := list (str * V).

Definition keys {V} (d : dict V) : list str := map fst d.

Fixpoint lookup {V} (d : dict V) (k : str) : option V :=
  match d with
  | [] => None
  | (k', v) :: d' => if str_eqb k k' then Some v else lookup d' k
  end.

(** [d[k]] *)
Definition getitem {V} (d : dict V) (k : str) : raising V :=
  match lookup d k with
  | Some v => ret v
  | None => raise (KeyError (JStr k))
  end.

(** [d.get(k, default)] *)
Definition get {V} (d : dict V) (k : str) (default : V) : V :=
  match lookup d k with
  | Some v => v
  | None => default
  end.

(** ** The static tables *)

Definition DEEPSEEK_API_URL : str := lit "https://api.deepseek.com/chat/completions".

Definition SYSTEM_PROMPT_PRESETS : dict str :=
  [ (lit "Improve prompt (default)",
      lit "You are an expert prompt engineer for image generation. "
      ++ lit "Rewrite and improve the user's prompt to be clearer, richer in visual details, "
      ++ lit "composition, lighting, style, quality tags, and camera/lens hints when relevant. "
      ++ lit "Return only the final improved prompt text.");
    (lit "Create prompt from idea",
      lit "You are an expert prompt engineer for image generation. "
      ++ lit "If user provides an idea, produce one strong, production-ready image prompt. "
      ++ lit "If input is empty, invent a compelling prompt yourself. "
      ++ lit "Return only the final prompt text.");
    (lit "Photorealistic refinement",
      lit "You improve prompts for photorealistic image generation. "
      ++ lit "Add scene detail, lens/camera cues, realistic lighting, textures, and composition. "
      ++ lit "Avoid fantasy terms unless user asks. Return only the final prompt text.");
    (lit "Cinematic style",
      lit "You improve prompts in cinematic style. "
      ++ lit "Enhance storytelling, framing, mood, color grading, lighting direction, and shot type. "
      ++ lit "Return only the final prompt text.");
    (lit "Anime style",
      lit "You improve prompts for anime-style image generation. "
      ++ lit "Enhance character design, line style, palette, mood, and composition. "
      ++ lit "Return only the final prompt text.");
    (lit "Custom", lit "") ].

Definition TARGET_MODEL_HINTS : dict str :=
  [ (lit "z-image turbo",
      lit "Prioritize concise but high-signal wording with strong visual anchors and minimal redundancy.");
    (lit "nano banana pro",
      lit "Use practical, concrete descriptors and stable composition instructions.");
    (lit "seedream 4.5",
      lit "Emphasize imaginative atmosphere, cinematic lighting, and rich scene storytelling.");
    (lit "flux 2 klein 9b",
      lit "Use clear structure with subject, environment, lighting, and style in predictable order.");
    (lit "qwen image 2512",
      lit "Provide balanced detail and explicit visual constraints for reliable output.");
    (lit "qwen edit image 2511",
      lit "Write edit-oriented instructions, preserving base content while specifying precise changes.");
    (lit "sdxl",
      lit "Use SDXL-friendly descriptive style with clear subject, style, composition, and quality cues.") ].

Definition PROMPT_STYLE_HINTS : dict str :=
  [ (lit "Short", lit "Keep the output short and compact.");
    (lit "Detailed", lit "Provide a detailed, information-rich prompt.");
    (lit "Artistic", lit "Use expressive artistic language and mood-driven descriptors.");
    (lit "Cinematic", lit "Use cinematic framing, shot language, and color-grading cues.");
    (lit "Technical", lit "Use technical, precise wording focused on controllable visual attributes.") ].

Definition LANGUAGE_HINTS : dict str :=
  [ (lit "english", lit "Return the final prompt in English only.");
    (lit "chinese", lit "Return the final prompt in Simplified Chinese only.") ].

(** ** The declared inputs *)

(** One entry of [INPUT_TYPES]: a type tag with its options, or a list of
    choices with its default. *)
Inductive input_spec : Type :=
| STRING (multiline : bool) (default : str)
| FLOAT (default min max step : float)
| INT (default min max step : Z)
| COMBO (choices : list str) (default : str).

Record input_types : Type := {
  required : dict input_spec;
  optional : dict input_spec
}.

#[warnings="-inexact-float"]
Definition INPUT_TYPES : input_types := {|
  required :=
    [ (lit "api_key", STRING false (lit ""));
      (lit "model",
        COMBO [lit "deepseek-chat"; lit "deepseek-reasoner"] (lit "deepseek-chat"));
      (lit "temperature", FLOAT 1.0 0.0 2.0 0.05);
      (lit "max_tokens", INT 512 1 8192 1);
      (lit "output_language", COMBO [lit "english"; lit "chinese"] (lit "english"));
      (lit "target_model",
        COMBO [ lit "z-image turbo";
                lit "nano banana pro";
                lit "seedream 4.5";
                lit "flux 2 klein 9b";
                lit "qwen image 2512";
                lit "qwen edit image 2511";
                lit "sdxl" ]
              (lit "sdxl"));
      (lit "prompt_style",
        COMBO [lit "Short"; lit "Detailed"; lit "Artistic"; lit "Cinematic"; lit "Technical"]
              (lit "Detailed"));
      (lit "system_prompt_mode",
        COMBO (keys SYSTEM_PROMPT_PRESETS) (lit "Improve prompt (default)"));
      (lit "custom_system_prompt", STRING true (lit "")) ];
  optional :=
    [ (lit "text", STRING true (lit "")) ]
|}.

(** The choices a caller is offered for a required input. *)
Definition choices_of (name : str) : list str :=
  match lookup (required INPUT_TYPES) name with
  | Some (COMBO choices _) => choices
  | _ => []
  end.

(** ** The prompt composer *)

Definition _resolve_system_prompt (system_prompt_mode : str)
    (custom_system_prompt : option str) : raising str :=
  if str_eqb system_prompt_mode (lit "Custom") then
    let custom_value := strip (or_empty custom_system_prompt) in
    if negb (truthy custom_value) then
      raise (ValueError (lit "system_prompt_mode is Custom, but custom_system_prompt is empty."))
    else ret custom_value
  else
    fallback <- getitem SYSTEM_PROMPT_PRESETS (lit "Improve prompt (default)") ;;
    ret (get SYSTEM_PROMPT_PRESETS system_prompt_mode fallback).

Definition _build_user_message (text : option str)
    (output_language target_model prompt_style : str) : raising str :=
  let clean_text := strip (or_empty text) in
  english <- getitem LANGUAGE_HINTS (lit "english") ;;
  let language_hint := get LANGUAGE_HINTS output_language english in
  sdxl <- getitem TARGET_MODEL_HINTS (lit "sdxl") ;;
  let target_model_hint := get TARGET_MODEL_HINTS target_model sdxl in
  detailed <- getitem PROMPT_STYLE_HINTS (lit "Detailed") ;;
  let style_hint := get PROMPT_STYLE_HINTS prompt_style detailed in
  let control_block :=
    lit "Generation requirements:" ++ nl
    ++ lit "- Target image model: " ++ target_model ++ nl
    ++ lit "- Model adaptation note: " ++ target_model_hint ++ nl
    ++ lit "- Prompt style: " ++ prompt_style ++ lit ". " ++ style_hint ++ nl
    ++ lit "- Output language: " ++ output_language ++ lit ". " ++ language_hint ++ nl
    ++ lit "- Return only the final prompt text with no explanation." in
  if truthy clean_text then
    ret (lit "Improve this prompt for image generation. "
         ++ lit "Keep intent, but increase quality and specificity:" ++ nl ++ nl
         ++ clean_text ++ nl ++ nl
         ++ control_block)
  else
    ret (lit "No input prompt was provided. "
         ++ lit "Generate a complete high-quality image-generation prompt from scratch." ++ nl ++ nl
         ++ control_block).

(** ** Subscripts on decoded JSON *)

(** [seq[i]] on a list or a string, with Python's negative indices. *)
Definition seq_index {A} (l : list A) (i : Z) : option A :=
  let n := Z.of_nat (List.length l) in
  let j := if (i <? 0)%Z then (i + n)%Z else i in
  if ((j <? 0) || (n <=? j))%Z then None else nth_error l (Z.to_nat j).

(** [v[k]] with a string key: only a [dict] accepts it. *)
Definition getitem_key (v : json) (k : str) : raising json :=
  match v with
  | JDict d => getitem d k
  | _ => raise TypeError
  end.

(** [v[i]] with an integer: a [list] or a [str] is indexed, a decoded
    [dict] has string keys only, anything else is not subscriptable. *)
Definition getitem_index (v : json) (i : Z) : raising json :=
  match v with
  | JList l =>
      match seq_index l i with
      | Some x => ret x
      | None => raise IndexError
      end
  | JStr s =>
      match seq_index s i with
      | Some c => ret (JStr [c])
      | None => raise IndexError
      end
  | JDict _ => raise (KeyError (JInt i))
  | _ => raise TypeError
  end.

(** ** The network as an interaction tree *)

Definition bytes := list Byte.byte.

(** [lo <= b <= hi] *)
Definition between (lo hi b : N) : bool := ((lo <=? b) && (b <=? hi))%N.

(** [bytes.decode("utf-8", errors="replace")] on the values of the bytes:
    a well-formed sequence gives its code point; otherwise the longest
    start of a well-formed sequence (one byte at least) gives U+FFFD and
    decoding resumes behind it. *)
Fixpoint utf8_replace (bs : list N) : str :=
  (match bs with
   | [] => []
   | b1 :: t1 =>
       if b1 <? 0x80 then b1 :: utf8_replace t1
       else if between 0xC2 0xDF b1 then
         match t1 with
         | b2 :: t2 =>
             if between 0x80 0xBF b2
             then ((b1 - 0xC0) * 64 + (b2 - 0x80)) :: utf8_replace t2
             else 0xFFFD :: utf8_replace t1
         | [] => [0xFFFD]
         end
       else if between 0xE0 0xEF b1 then
         match t1 with
         | b2 :: t2 =>
             if between (if b1 =? 0xE0 then 0xA0 else 0x80)
                        (if b1 =? 0xED then 0x9F else 0xBF) b2
             then
               match t2 with
               | b3 :: t3 =>
                   if between 0x80 0xBF b3
                   then ((b1 - 0xE0) * 4096 + (b2 - 0x80) * 64 + (b3 - 0x80))
                        :: utf8_replace t3
                   else 0xFFFD :: utf8_replace t2
               | [] => [0xFFFD]
               end
             else 0xFFFD :: utf8_replace t1
         | [] => [0xFFFD]
         end
       else if between 0xF0 0xF4 b1 then
         match t1 with
         | b2 :: t2 =>
             if between (if b1 =? 0xF0 then 0x90 else 0x80)
                        (if b1 =? 0xF4 then 0x8F else 0xBF) b2
             then
               match t2 with
               | b3 :: t3 =>
                   if between 0x80 0xBF b3
                   then
                     match t3 with
                     | b4 :: t4 =>
                         if between 0x80 0xBF b4
                         then ((b1 - 0xF0) * 262144 + (b2 - 0x80) * 4096
                               + (b3 - 0x80) * 64 + (b4 - 0x80))
                              :: utf8_replace t4
                         else 0xFFFD :: utf8_replace t3
                     | [] => [0xFFFD]
                     end
                   else 0xFFFD :: utf8_replace t2
               | [] => [0xFFFD]
               end
             else 0xFFFD :: utf8_replace t1
         | [] => [0xFFFD]
         end
       else 0xFFFD :: utf8_replace t1
   end)%N.

Definition decode_utf8_replace (content : bytes) : str :=
  utf8_replace (map Byte.to_N content).

(** [urllib.request.Request(url, data=, headers=, method=)] *)
Record Request : Type := mkRequest {
  full_url : str;
  data : bytes;
  headers : dict str;
  method : str
}.

(** What the block [with urlopen(req, timeout=90) as resp: raw =
    resp.read().decode("utf-8")] can do, as the handlers of the source tell
    the cases apart.  [Body raw] is the answer, read and decoded inside the
    block.  An [HTTPError] is handed to its handler unread: [fp] is [None]
    when [e.fp] is falsy, and otherwise what [e.read()] will do there, the
    bytes of the body or the exception it raises (a body cut short, a
    connection reset, a timeout).  [URLError] carries [e.reason] and
    [OtherException] [str(e)], both as formatted by an f-string.  One call
    of [urlopen] is one node: what [urllib] does inside it (following a
    redirect, failing to connect) is part of its outcome. *)
Inductive urlopen_outcome : Type :=
| Body (raw : str)
| HTTPError (code : Z) (fp : option (raising bytes))
| URLError (reason : str)
| OtherException (message : str).

Inductive io (A : Type) : Type :=
| Pure (a : A)
| Raise (e : exn)
| Urlopen (req : Request) (timeout : Z) (k : urlopen_outcome -> io A).

Arguments Pure {A} a.
Arguments Raise {A} e.
Arguments Urlopen {A} req timeout k.

Fixpoint io_bind {A B} (m : io A) (f : A -> io B) : io B :=
  match m with
  | Pure a => f a
  | Raise e => Raise e
  | Urlopen req timeout k => Urlopen req timeout (fun o => io_bind (k o) f)
  end.

#[global] Instance Monad_io : Monad io := {| ret := @Pure; bind := @io_bind |}.

Definition lift {A} (r : raising A) : io A :=
  match r with
  | inr a => Pure a
  | inl e => Raise e
  end.

(** Running a tree against a network [net]: the result, and the [Request]
    objects handed to [urlopen], one for each call, in order. *)
Fixpoint run {A} (net : Request -> Z -> urlopen_outcome) (m : io A)
  : raising A * list Request :=
  match m with
  | Pure a => (inr a, [])
  | Raise e => (inl e, [])
  | Urlopen req timeout k =>
      let (r, sent) := run net (k (net req timeout)) in (r, req :: sent)
  end.

(** ** The API client and the node entry point

    [json.dumps], [str.encode] and [json.loads] belong to the Python
    library; the client is defined over any implementation of them. *)

Record node_output : Type := {
  ui_text : list str;
  result : str * str
}.

Section Client.

Variable json_dumps : json -> str.
Variable encode_utf8 : str -> bytes.
Variable json_loads : str -> raising json.

(** The local [payload] of [_call_deepseek]. *)
Definition payload (model : str) (temperature : float) (max_tokens : Z)
    (system_prompt user_message : str) : json :=
  JDict [ (lit "model", JStr model);
          (lit "messages",
            JList [ JDict [ (lit "role", JStr (lit "system"));
                            (lit "content", JStr system_prompt) ];
                    JDict [ (lit "role", JStr (lit "user"));
                            (lit "content", JStr user_message) ] ]);
          (lit "temperature", JFloat temperature);
          (lit "max_tokens", JInt max_tokens) ].

(** The local [req] of [_call_deepseek].  [json.dumps] escapes every
    character outside ASCII, so that [encode] has nothing to reject. *)
Definition req (api_key model : str) (temperature : float) (max_tokens : Z)
    (system_prompt user_message : str) : Request :=
  mkRequest DEEPSEEK_API_URL
    (encode_utf8 (json_dumps (payload model temperature max_tokens system_prompt user_message)))
    [ (lit "Content-Type", lit "application/json");
      (lit "Authorization", lit "Bearer " ++ api_key) ]
    (lit "POST").

Definition _call_deepseek (api_key model : str) (temperature : float)
    (max_tokens : Z) (system_prompt user_message : str) : io str :=
  Urlopen (req api_key model temperature max_tokens system_prompt user_message) 90
    (fun outcome =>
    match outcome with
    | HTTPError code fp =>
        (* [e.read()] runs in the handler, under no [try] *)
        body <- match fp with
                | Some read => content <- lift read ;; ret (decode_utf8_replace content)
                | None => ret (lit "")
                end ;;
        Raise (RuntimeError (lit "DeepSeek API HTTP " ++ str_of_int code ++ lit ": " ++ body))
    | URLError reason =>
        Raise (RuntimeError (lit "DeepSeek API connection error: " ++ reason))
    | OtherException message =>
        Raise (RuntimeError (lit "Unexpected DeepSeek API error: " ++ message))
    | Body raw =>
        lift (catch
                (data <- json_loads raw ;;
                 choices <- getitem_key data (lit "choices") ;;
                 first <- getitem_index choices 0 ;;
                 message <- getitem_key first (lit "message") ;;
                 content <- getitem_key message (lit "content") ;;
                 match content with
                 | JStr s =>
                     if negb (truthy (strip s))
                     then raise (ValueError (lit "Empty response content."))
                     else ret (strip s)
                 | _ => raise (ValueError (lit "Empty response content."))
                 end)
                (fun _ => raise (RuntimeError (lit "Failed to parse DeepSeek response: " ++ raw))))
    end).

(** [temperature] and [max_tokens] arrive as the FLOAT and INT the node
    declares, on which [float(...)] and [int(...)] are the identity. *)
Definition generate_prompt (api_key : option str) (model : str)
    (temperature : float) (max_tokens : Z)
    (output_language target_model prompt_style system_prompt_mode : str)
    (custom_system_prompt text : option str) : io node_output :=
  let api_key := strip (or_empty api_key) in
  if negb (truthy api_key) then Raise (ValueError (lit "api_key is required."))
  else
    system_prompt <- lift (_resolve_system_prompt system_prompt_mode custom_system_prompt) ;;
    user_message <- lift (_build_user_message text output_language target_model prompt_style) ;;
    prompt <- _call_deepseek api_key model temperature max_tokens system_prompt user_message ;;
    let preview :=
      lit "[model: " ++ target_model ++ lit "] [style: " ++ prompt_style
      ++ lit "] [lang: " ++ output_language ++ lit "]" ++ nl ++ nl ++ prompt in
    ret {| ui_text := [preview]; result := (prompt, preview) |}.

End Client.

(** ** The path [choices[0].message.content], read as a JSON path

    This is the reading of the specification: objects are entered by
    member name and the array by its first element.  It is compared with
    the subscripts of [_call_deepseek] below. *)
Definition content_at (data : json) : option json :=
  match data with
  | JDict top =>
      match lookup top (lit "choices") with
      | Some (JList (JDict first :: _)) =>
          match lookup first (lit "message") with
          | Some (JDict message) => lookup message (lit "content")
          | _ => None
          end
      | _ => None
      end
  | _ => None
  end.

(** ** A sample library

    A decoder for the fragment of JSON with integer numbers and the simple
    escapes, and inert stand-ins for the serialiser.  They instantiate the
    client on concrete inputs; no general statement depends on them. *)
Module Sample.

Definition json_dumps (_ : json) : str := [].
Definition encode_utf8 (_ : str) : bytes := [].

Definition is_ws (c : char) : bool :=
  ((c =? 0x20) || (c =? 0x09) || (c =? 0x0A) || (c =? 0x0D))%N.

Fixpoint skip_ws (s : str) : str :=
  match s with
  | c :: s' => if is_ws c then skip_ws s' else s
  | [] => []
  end.

Definition unescape (c : char) : option char :=
  (if c =? 0x22 then Some 0x22        (* quote *)
   else if c =? 0x5C then Some 0x5C   (* backslash *)
   else if c =? 0x2F then Some 0x2F   (* slash *)
   else if c =? 0x62 then Some 0x08   (* b *)
   else if c =? 0x66 then Some 0x0C   (* f *)
   else if c =? 0x6E then Some 0x0A   (* n *)
   else if c =? 0x72 then Some 0x0D   (* r *)
   else if c =? 0x74 then Some 0x09   (* t *)
   else None)%N.

(** The text after an opening quote, up to the closing one. *)
Fixpoint string_body (s acc : str) : option (str * str) :=
  match s with
  | [] => None
  | c :: rest =>
      if (c =? 0x22)%N then Some (rev acc, rest)
      else if (c =? 0x5C)%N then
        match rest with
        | e :: rest' =>
            match unescape e with
            | Some c' => string_body rest' (c' :: acc)
            | None => None
            end
        | [] => None
        end
      else if (c <? 0x20)%N then None
      else string_body rest (c :: acc)
  end.

Definition is_digit (c : char) : bool := ((0x30 <=? c) && (c <=? 0x39))%N.

Fixpoint digits (s : str) (acc : Z) : Z * str :=
  match s with
  | c :: rest =>
      if is_digit c then digits rest (10 * acc + Z.of_N (c - 0x30))%Z else (acc, s)
  | [] => (acc, [])
  end.

(** An integer; a fraction or an exponent is outside the fragment. *)
Definition number (s : str) : option (json * str) :=
  let (negative, s1) :=
    match s with
    | c :: rest => if (c =? 0x2D)%N then (true, rest) else (false, s)
    | [] => (false, s)
    end in
  match s1 with
  | d :: after =>
      if is_digit d then
        let (n, rest) :=
          if (d =? 0x30)%N then (0%Z, after) else digits s1 0 in
        match rest with
        | c :: _ =>
            if is_digit c || (c =? 0x2E)%N || (c =? 0x65)%N || (c =? 0x45)%N
            then None
            else Some (JInt (if negative then - n else n), rest)
        | [] => Some (JInt (if negative then - n else n), rest)
        end
      else None
  | [] => None
  end.

(** [d[k] = v] on an insertion-ordered dictionary. *)
Fixpoint dict_set {V} (d : dict V) (k : str) (v : V) : dict V :=
  match d with
  | [] => [(k, v)]
  | (k', v') :: d' =>
      if str_eqb k k' then (k, v) :: d' else (k', v') :: dict_set d' k v
  end.

Definition keyword (word : string) (v : json) (s : str) : option (json * str) :=
  if startswith s (lit word)
  then Some (v, skipn (String.length word) s)
  else None.

Fixpoint value (fuel : nat) (s : str) : option (json * str) :=
  match fuel with
  | O => None
  | S fuel' =>
      let fix elements (n : nat) (s : str) (acc : list json) {struct n}
        : option (json * str) :=
        match n with
        | O => None
        | S n' =>
            match value fuel' s with
            | Some (v, rest) =>
                match skip_ws rest with
                | c :: rest' =>
                    if (c =? 0x2C)%N then elements n' rest' (v :: acc)
                    else if (c =? 0x5D)%N then Some (JList (rev (v :: acc)), rest')
                    else None
                | [] => None
                end
            | None => None
            end
        end in
      let fix members (n : nat) (s : str) (acc : dict json) {struct n}
        : option (json * str) :=
        match n with
        | O => None
        | S n' =>
            match skip_ws s with
            | q :: s1 =>
                if (q =? 0x22)%N then
                  match string_body s1 [] with
                  | Some (k, s2) =>
                      match skip_ws s2 with
                      | colon :: s3 =>
                          if (colon =? 0x3A)%N then
                            match value fuel' s3 with
                            | Some (v, rest) =>
                                match skip_ws rest with
                                | c :: rest' =>
                                    if (c =? 0x2C)%N
                                    then members n' rest' (dict_set acc k v)
                                    else if (c =? 0x7D)%N
                                    then Some (JDict (dict_set acc k v), rest')
                                    else None
                                | [] => None
                                end
                            | None => None
                            end
                          else None
                      | [] => None
                      end
                  | None => None
                  end
                else None
            | [] => None
            end
        end in
      match skip_ws s with
      | c :: rest =>
          if (c =? 0x7B)%N then
            match skip_ws rest with
            | c' :: rest' =>
                if (c' =? 0x7D)%N then Some (JDict [], rest')
                else members (List.length rest) rest []
            | [] => None
            end
          else if (c =? 0x5B)%N then
            match skip_ws rest with
            | c' :: rest' =>
                if (c' =? 0x5D)%N then Some (JList [], rest')
                else elements (List.length rest) rest []
            | [] => None
            end
          else if (c =? 0x22)%N then
            match string_body rest [] with
            | Some (text, rest') => Some (JStr text, rest')
            | None => None
            end
          else if (c =? 0x74)%N then keyword "true" (JBool true) (c :: rest)
          else if (c =? 0x66)%N then keyword "false" (JBool false) (c :: rest)
          else if (c =? 0x6E)%N then keyword "null" JNull (c :: rest)
          else number (c :: rest)
      | [] => None
      end
  end.

Definition json_loads (raw : str) : raising json :=
  match value (S (List.length raw)) raw with
  | Some (v, rest) =>
      match skip_ws rest with
      | [] => ret v
      | _ :: _ => raise JSONDecodeError
      end
  | None => raise JSONDecodeError
  end.

(** A network that answers every request in the same way. *)
Definition always (answer : urlopen_outcome) (_ : Request) (_ : Z) : urlopen_outcome :=
  answer.

(** [{"choices":[{"message":{"content":"X"}}]}] *)
Definition completion_body (content : str) : str :=
  let q := [0x22%N] in
  lit "{" ++ q ++ lit "choices" ++ q ++ lit ":[{" ++ q ++ lit "message" ++ q
  ++ lit ":{" ++ q ++ lit "content" ++ q ++ lit ":" ++ q ++ content ++ q ++ lit "}}]}".

End Sample.

(** ** Vocabulary of the statements *)

(** Distinctness of a list of keys, decided. *)
Fixpoint distinct (l : list str) : bool :=
  match l with
  | [] => true
  | k :: l' => negb (existsb (str_eqb k) l') && distinct l'
  end.

Definition subset (a b : list str) : bool :=
  forallb (fun k => existsb (str_eqb k) b) a.

Definition improve_prompt_default : str :=
  lit "You are an expert prompt engineer for image generation. Rewrite and improve the user's prompt to be clearer, richer in visual details, composition, lighting, style, quality tags, and camera/lens hints when relevant. Return only the final improved prompt text.".

Definition english_hint : str := lit "Return the final prompt in English only.".

Definition sdxl_hint : str :=
  lit "Use SDXL-friendly descriptive style with clear subject, style, composition, and quality cues.".

Definition detailed_hint : str := lit "Provide a detailed, information-rich prompt.".

Definition custom_is_empty : exn :=
  ValueError (lit "system_prompt_mode is Custom, but custom_system_prompt is empty.").

(** The block of requirements, for hints already chosen. *)
Definition control_block_of (output_language target_model prompt_style : str)
    (language_hint target_model_hint style_hint : str) : str :=
  lit "Generation requirements:" ++ nl
  ++ lit "- Target image model: " ++ target_model ++ nl
  ++ lit "- Model adaptation note: " ++ target_model_hint ++ nl
  ++ lit "- Prompt style: " ++ prompt_style ++ lit ". " ++ style_hint ++ nl
  ++ lit "- Output language: " ++ output_language ++ lit ". " ++ language_hint ++ nl
  ++ lit "- Return only the final prompt text with no explanation.".

Definition improve_header : str :=
  lit "Improve this prompt for image generation. "
  ++ lit "Keep intent, but increase quality and specificity:".

Definition scratch_header : str :=
  lit "No input prompt was provided. "
  ++ lit "Generate a complete high-quality image-generation prompt from scratch.".

Definition parse_failure (raw : str) : exn :=
  RuntimeError (lit "Failed to parse DeepSeek response: " ++ raw).

(** A successful answer as the specification reads it: the body decodes,
    the path leads to a string, and the string is more than white space. *)
Definition expected_completion (loaded : raising json) (raw : str) : raising str :=
  match loaded with
  | inr data =>
      match content_at data with
      | Some (JStr s) => if forallb isspace s then inl (parse_failure raw) else inr (strip s)
      | _ => inl (parse_failure raw)
      end
  | inl _ => inl (parse_failure raw)
  end.

(** The UTF-8 form of a code point, as [str.encode("utf-8")] writes it. *)
Definition utf8_char (c : char) : list N :=
  (if c <? 0x80 then [c]
   else if c <? 0x800 then [0xC0 + c / 64; 0x80 + c mod 64]
   else if c <? 0x10000
   then [0xE0 + c / 4096; 0x80 + (c / 64) mod 64; 0x80 + c mod 64]
   else [0xF0 + c / 262144; 0x80 + (c / 4096) mod 64;
         0x80 + (c / 64) mod 64; 0x80 + c mod 64])%N.

(** A code point that has a UTF-8 form: up to U+10FFFF and no surrogate. *)
Definition is_scalar (c : char) : bool :=
  ((c <? 0xD800) || ((0xE000 <=? c) && (c <? 0x110000)))%N.

(** Bytes that are well-formed UTF-8: decoding replaces nothing, so that
    the decoded text, encoded again, is the bytes. *)
Definition is_utf8 (content : bytes) : bool :=
  str_eqb (flat_map utf8_char (decode_utf8_replace content)) (map Byte.to_N content).

(** The bytes of a body occur as they are in the UTF-8 form of a text. *)
Definition holds_verbatim (text : str) (content : bytes) : bool :=
  contains (flat_map utf8_char text) (map Byte.to_N content).

(** The four ways a message of the client's RuntimeError starts. *)
Definition error_prefixes : list str :=
  [ lit "DeepSeek API HTTP ";
    lit "DeepSeek API connection error: ";
    lit "Unexpected DeepSeek API error: ";
    lit "Failed to parse DeepSeek response: " ].

(** A byte for a value below 256. *)
Definition octet (n : N) : Byte.byte :=
  match Byte.of_N n with
  | Some b => b
  | None => Byte.x00
  end.

(** [text.encode("utf-8")], for a text without surrogates. *)
Definition utf8_of (text : str) : bytes := map octet (flat_map utf8_char text).

(** A text that neither starts nor ends with white space. *)
Definition is_trimmed (s : str) : bool :=
  negb (match s with c :: _ => isspace c | [] => false end)
  && negb (match rev s with c :: _ => isspace c | [] => false end).

(** Every request a tree can send, whatever the answers, satisfies [P]. *)
Fixpoint all_requests {A} (P : Request -> Z -> Prop) (m : io A) : Prop :=
  match m with
  | Urlopen rq timeout k => P rq timeout /\ forall o, all_requests P (k o)
  | _ => True
  end.

(** No run of the tree sends more than [n] requests. *)
Fixpoint requests_bounded {A} (n : nat) (m : io A) : Prop :=
  match m with
  | Urlopen _ _ k =>
      match n with
      | O => False
      | S n' => forall o, requests_bounded n' (k o)
      end
  | _ => True
  end.

(** A declared input whose default is a value the declaration admits. *)
Definition admits_default (spec : input_spec) : bool :=
  match spec with
  | STRING _ _ => true
  | FLOAT default min max _ => PrimFloat.leb min default && PrimFloat.leb default max
  | INT default min max _ => ((min <=? default) && (default <=? max))%Z
  | COMBO choices default => existsb (str_eqb default) choices
  end.

(** The preview line of [generate_prompt]. *)
Definition preview_of (target_model prompt_style output_language prompt : str) : str :=
  lit "[model: " ++ target_model ++ lit "] [style: " ++ prompt_style
  ++ lit "] [lang: " ++ output_language ++ lit "]" ++ nl ++ nl ++ prompt.

(** * Properties *)

(** ** Strings *)

Lemma str_eqb_eq (a b : str) : str_eqb a b = true <-> a = b.
Proof.
  revert b; induction a as [|x a IH]; intros [|y b]; simpl; split; try easy.
  - intros H. apply andb_true_iff in H as [Hx Hab].
    apply N.eqb_eq in Hx. apply IH in Hab. now subst.
  - intros H. injection H as -> ->. rewrite N.eqb_refl. now apply IH.
Qed.

Lemma str_eqb_refl (a : str) : str_eqb a a = true.
Proof. now apply str_eqb_eq. Qed.

Lemma str_eqb_neq (a b : str) : str_eqb a b = false <-> a <> b.
Proof.
  rewrite <- str_eqb_eq. destruct (str_eqb a b); split; intros; congruence.
Qed.

Lemma truthy_nil (s : str) : truthy s = false <-> s = [].
Proof. destruct s; simpl; split; congruence. Qed.

Lemma startswith_app (needle suf : str) : startswith (needle ++ suf) needle = true.
Proof. induction needle as [|x n IH]; simpl; [reflexivity|]. now rewrite N.eqb_refl. Qed.

Lemma startswith_inv (hay needle : str) :
  startswith hay needle = true -> exists suf, hay = needle ++ suf.
Proof.
  revert hay; induction needle as [|x n IH]; intros hay H.
  - now exists hay.
  - destruct hay as [|y hay]; simpl in H; [discriminate|].
    apply andb_true_iff in H as [Hx Hn]. apply N.eqb_eq in Hx. subst y.
    destruct (IH _ Hn) as [suf ->]. now exists suf.
Qed.

(** [contains] decides the substring relation. *)
Lemma contains_spec (hay needle : str) :
  contains hay needle = true <-> exists pre suf, hay = pre ++ needle ++ suf.
Proof.
  split.
  - induction hay as [|c hay IH]; simpl; intros H.
    + rewrite orb_false_r in H. apply startswith_inv in H as [suf H].
      now exists [], suf.
    + apply orb_true_iff in H as [H|H].
      * apply startswith_inv in H as [suf H]. now exists [], suf.
      * destruct (IH H) as (pre & suf & ->). now exists (c :: pre), suf.
  - intros (pre & suf & ->). induction pre as [|c pre IH]; simpl.
    + pose proof (startswith_app needle suf) as H.
      destruct (needle ++ suf); simpl; now rewrite H.
    + rewrite IH. apply orb_true_r.
Qed.

Lemma contains_mid (pre needle suf : str) : contains (pre ++ needle ++ suf) needle = true.
Proof. apply contains_spec. now exists pre, suf. Qed.


(** ** White space and [strip] *)

Lemma lstrip_nil (s : str) : lstrip s = [] <-> forallb isspace s = true.
Proof.
  induction s as [|c s IH]; simpl; [easy|].
  destruct (isspace c); simpl; [exact IH | easy].
Qed.

Lemma lstrip_split (s : str) :
  exists pre, s = pre ++ lstrip s /\ forallb isspace pre = true.
Proof.
  induction s as [|c s (pre & E & Hpre)]; simpl.
  - now exists [].
  - destruct (isspace c) eqn:Hc.
    + exists (c :: pre). simpl. rewrite Hc, Hpre. split; [now f_equal | reflexivity].
    + now exists [].
Qed.

Lemma lstrip_head (s : str) (c : char) (t : str) : lstrip s = c :: t -> isspace c = false.
Proof.
  induction s as [|x s IH]; simpl; [discriminate|].
  destruct (isspace x) eqn:Hx; [exact IH|]. intros H. injection H as -> _. exact Hx.
Qed.

Lemma forallb_rev {A} (f : A -> bool) (l : list A) : forallb f (rev l) = forallb f l.
Proof.
  induction l as [|x l IH]; simpl; [reflexivity|].
  rewrite forallb_app, IH. simpl. rewrite andb_true_r. apply andb_comm.
Qed.

(** The trimmed text is empty exactly when the text is white space only. *)
Lemma truthy_strip (s : str) : truthy (strip s) = negb (forallb isspace s).
Proof.
  unfold strip, rstrip.
  destruct (forallb isspace s) eqn:Hs.
  - apply lstrip_nil in Hs. now rewrite Hs.
  - destruct (lstrip s) as [|c t] eqn:E.
    + apply lstrip_nil in E. congruence.
    + apply lstrip_head in E as Hc.
      destruct (lstrip (rev (c :: t))) as [|x l] eqn:E'.
      * apply lstrip_nil in E'. rewrite forallb_rev in E'. simpl in E'.
        rewrite Hc in E'. discriminate.
      * simpl. now destruct (rev l).
Qed.

(** [strip] removes a run of white space at each end and nothing else; what
    is left neither starts nor ends with white space. *)
Lemma strip_spec (s : str) :
  exists pre suf,
    s = pre ++ strip s ++ suf
    /\ forallb isspace pre = true /\ forallb isspace suf = true
    /\ (forall c t, strip s = c :: t -> isspace c = false)
    /\ (forall c t, strip s = t ++ [c] -> isspace c = false).
Proof.
  unfold strip, rstrip.
  destruct (lstrip_split s) as (pre & Es & Hpre).
  destruct (lstrip_split (rev (lstrip s))) as (suf' & Er & Hsuf).
  assert (El : lstrip s = rev (lstrip (rev (lstrip s))) ++ rev suf').
  { now rewrite <- rev_app_distr, <- Er, rev_involutive. }
  exists pre, (rev suf'). repeat split.
  - now rewrite <- El.
  - exact Hpre.
  - now rewrite forallb_rev.
  - intros c t H. rewrite H in El. simpl in El. exact (lstrip_head _ _ _ El).
  - intros c t H.
    apply (f_equal (@rev _)) in H. rewrite rev_involutive, rev_app_distr in H.
    simpl in H. exact (lstrip_head _ _ _ H).
Qed.

(** ** Dictionaries *)

Section DictFacts.

Context {V : Type}.
Implicit Types (d : dict V) (k : str) (v : V).

Lemma lookup_Some_In d k v : lookup d k = Some v -> In (k, v) d.
Proof.
  induction d as [|[k' v'] d IH]; simpl; [discriminate|].
  destruct (str_eqb k k') eqn:E.
  - apply str_eqb_eq in E. intros H. injection H as ->. subst. now left.
  - intros H. right. now apply IH.
Qed.

Lemma lookup_None d k : lookup d k = None <-> ~ In k (keys d).
Proof.
  induction d as [|[k' v'] d IH]; simpl; [easy|].
  destruct (str_eqb k k') eqn:E.
  - apply str_eqb_eq in E. subst. split; [discriminate | intros H; exfalso; auto].
  - apply str_eqb_neq in E. rewrite IH. split.
    + intros H [H'|H']; [congruence | auto].
    + intros H H'. auto.
Qed.

(** With distinct keys, as in a dictionary display without repetition,
    an entry is found under its key. *)
Lemma lookup_In d k v : NoDup (keys d) -> In (k, v) d -> lookup d k = Some v.
Proof.
  induction d as [|[k' v'] d IH]; simpl; [easy|].
  intros Hnd [H|H].
  - injection H as -> ->. now rewrite str_eqb_refl.
  - inversion Hnd as [|? ? Hk Hd]; subst.
    destruct (str_eqb k k') eqn:E.
    + apply str_eqb_eq in E. subst. exfalso. apply Hk.
      change k' with (fst (k', v)). now apply in_map.
    + now apply IH.
Qed.

Lemma get_missing d k v : ~ In k (keys d) -> get d k v = v.
Proof. intros H. unfold get. apply lookup_None in H. now rewrite H. Qed.

Lemma get_found d k v default : lookup d k = Some v -> get d k default = v.
Proof. intros H. unfold get. now rewrite H. Qed.

End DictFacts.

Lemma distinct_NoDup (l : list str) : distinct l = true -> NoDup l.
Proof.
  induction l as [|k l IH]; simpl; intros H; constructor.
  - apply andb_true_iff in H as [H _]. intros Hin.
    assert (existsb (str_eqb k) l = true) as E.
    { apply existsb_exists. exists k. split; [exact Hin | apply str_eqb_refl]. }
    now rewrite E in H.
  - apply andb_true_iff in H as [_ H]. auto.
Qed.

Lemma subset_incl (a b : list str) : subset a b = true -> incl a b.
Proof.
  intros H k Hk. unfold subset in H. rewrite forallb_forall in H.
  apply H in Hk. apply existsb_exists in Hk as (k' & Hin & E).
  apply str_eqb_eq in E. now subst.
Qed.

(** ** The tables have no repeated key, so the association lists read as
    the dictionaries of the source. *)

Lemma SYSTEM_PROMPT_PRESETS_keys : NoDup (keys SYSTEM_PROMPT_PRESETS).
Proof. apply distinct_NoDup. vm_compute. reflexivity. Qed.

Lemma TARGET_MODEL_HINTS_keys : NoDup (keys TARGET_MODEL_HINTS).
Proof. apply distinct_NoDup. vm_compute. reflexivity. Qed.

Lemma PROMPT_STYLE_HINTS_keys : NoDup (keys PROMPT_STYLE_HINTS).
Proof. apply distinct_NoDup. vm_compute. reflexivity. Qed.

Lemma LANGUAGE_HINTS_keys : NoDup (keys LANGUAGE_HINTS).
Proof. apply distinct_NoDup. vm_compute. reflexivity. Qed.

(** ** The error monad *)

Lemma bind_inr {A B} (a : A) (f : A -> raising B) : bind (inr a : raising A) f = f a.
Proof. reflexivity. Qed.

Lemma bind_inl {A B} (e : exn) (f : A -> raising B) : bind (inl e : raising A) f = inl e.
Proof. reflexivity. Qed.

(** ** The fallback subscripts succeed *)

Lemma getitem_improve_prompt_default :
  getitem SYSTEM_PROMPT_PRESETS (lit "Improve prompt (default)") = inr improve_prompt_default.
Proof. vm_compute. reflexivity. Qed.

Lemma getitem_english : getitem LANGUAGE_HINTS (lit "english") = inr english_hint.
Proof. vm_compute. reflexivity. Qed.

Lemma getitem_sdxl : getitem TARGET_MODEL_HINTS (lit "sdxl") = inr sdxl_hint.
Proof. vm_compute. reflexivity. Qed.

Lemma getitem_detailed : getitem PROMPT_STYLE_HINTS (lit "Detailed") = inr detailed_hint.
Proof. vm_compute. reflexivity. Qed.

(** ** System prompt resolution *)

(** Outside the custom mode the function is a table lookup with a default. *)
Lemma resolve_preset_eq (mode : str) (custom : option str) :
  mode <> lit "Custom" ->
  _resolve_system_prompt mode custom
  = inr (get SYSTEM_PROMPT_PRESETS mode improve_prompt_default).
Proof.
  intros H. unfold _resolve_system_prompt.
  apply str_eqb_neq in H. rewrite H.
  now rewrite getitem_improve_prompt_default, bind_inr.
Qed.

(** In the custom mode the override decides alone. *)
Lemma resolve_custom_eq (custom : option str) :
  _resolve_system_prompt (lit "Custom") custom
  = if forallb isspace (or_empty custom) then inl custom_is_empty
    else inr (strip (or_empty custom)).
Proof.
  unfold _resolve_system_prompt. rewrite str_eqb_refl. cbv zeta.
  rewrite truthy_strip, negb_involutive.
  now destruct (forallb isspace (or_empty custom)).
Qed.

Lemma or_empty_Some (s : str) : or_empty (Some s) = s.
Proof. now destruct s. Qed.

(** C1. Outside the custom mode the system prompt is the preset filed under
    the mode name, whatever the override holds; a mode name that is no key of
    the preset table yields the instruction of "Improve prompt (default)". *)
Theorem resolve_system_prompt_preset (mode : str) (custom : option str) :
  mode <> lit "Custom" ->
  (forall canned, In (mode, canned) SYSTEM_PROMPT_PRESETS ->
     _resolve_system_prompt mode custom = inr canned)
  /\ (~ In mode (keys SYSTEM_PROMPT_PRESETS) ->
     _resolve_system_prompt mode custom
     = inr (lit "You are an expert prompt engineer for image generation. Rewrite and improve the user's prompt to be clearer, richer in visual details, composition, lighting, style, quality tags, and camera/lens hints when relevant. Return only the final improved prompt text.")).
Proof.
  intros Hmode. rewrite (resolve_preset_eq mode custom Hmode). split.
  - intros canned Hin. f_equal. apply get_found.
    apply lookup_In; [apply SYSTEM_PROMPT_PRESETS_keys | exact Hin].
  - intros Hout. f_equal. now apply get_missing.
Qed.

Lemma resolve_system_prompt_preset_witness :
  _resolve_system_prompt (lit "Anime style") (Some (lit "ignored"))
  = inr (lit "You improve prompts for anime-style image generation. Enhance character design, line style, palette, mood, and composition. Return only the final prompt text.")
  /\ _resolve_system_prompt (lit "Watercolour") None
     = inr improve_prompt_default.
Proof.
  split.
  - refine (proj1 (resolve_system_prompt_preset (lit "Anime style") (Some (lit "ignored")) _) _ _).
    + vm_compute. discriminate.
    + vm_compute. tauto.
  - refine (proj2 (resolve_system_prompt_preset (lit "Watercolour") None _) _).
    + vm_compute. discriminate.
    + vm_compute. intuition discriminate.
Defined.

(** The five presets, one by one. *)
Example resolve_each_preset (custom : option str) :
  _resolve_system_prompt (lit "Improve prompt (default)") custom
  = inr (lit "You are an expert prompt engineer for image generation. Rewrite and improve the user's prompt to be clearer, richer in visual details, composition, lighting, style, quality tags, and camera/lens hints when relevant. Return only the final improved prompt text.")
  /\ _resolve_system_prompt (lit "Create prompt from idea") custom
  = inr (lit "You are an expert prompt engineer for image generation. If user provides an idea, produce one strong, production-ready image prompt. If input is empty, invent a compelling prompt yourself. Return only the final prompt text.")
  /\ _resolve_system_prompt (lit "Photorealistic refinement") custom
  = inr (lit "You improve prompts for photorealistic image generation. Add scene detail, lens/camera cues, realistic lighting, textures, and composition. Avoid fantasy terms unless user asks. Return only the final prompt text.")
  /\ _resolve_system_prompt (lit "Cinematic style") custom
  = inr (lit "You improve prompts in cinematic style. Enhance storytelling, framing, mood, color grading, lighting direction, and shot type. Return only the final prompt text.")
  /\ _resolve_system_prompt (lit "Anime style") custom
  = inr (lit "You improve prompts for anime-style image generation. Enhance character design, line style, palette, mood, and composition. Return only the final prompt text.").
Proof.
  repeat split; (rewrite resolve_preset_eq; [vm_compute; reflexivity | vm_compute; discriminate]).
Qed.

(** C2. In the custom mode an override that is absent, empty or made of
    white space only raises the ValueError of the source, and any other
    override is returned trimmed. *)
Theorem resolve_system_prompt_custom (custom : option str) :
  _resolve_system_prompt (lit "Custom") custom
  = match custom with
    | None => inl (ValueError (lit "system_prompt_mode is Custom, but custom_system_prompt is empty."))
    | Some override =>
        if forallb isspace override
        then inl (ValueError (lit "system_prompt_mode is Custom, but custom_system_prompt is empty."))
        else inr (strip override)
    end.
Proof.
  rewrite resolve_custom_eq. destruct custom as [override|]; [|reflexivity].
  now rewrite or_empty_Some.
Qed.

Example resolve_custom_runs :
  _resolve_system_prompt (lit "Custom") (Some (lit "  be terse ")) = inr (lit "be terse")
  /\ _resolve_system_prompt (lit "Custom") (Some ([0x3000; 0x09; 0xA0]%N)) = inl custom_is_empty
  /\ _resolve_system_prompt (lit "Custom") (Some []) = inl custom_is_empty
  /\ _resolve_system_prompt (lit "Custom") None = inl custom_is_empty.
Proof. vm_compute. auto. Qed.

(** Every preset but the one filed under "Custom" is a non-empty text. *)
Lemma presets_non_empty (mode canned : str) :
  lookup SYSTEM_PROMPT_PRESETS mode = Some canned -> mode <> lit "Custom" -> canned <> [].
Proof.
  intros Hl Hmode. apply lookup_Some_In in Hl.
  assert (forallb (fun kv => str_eqb (fst kv) (lit "Custom") || truthy (snd kv))
            SYSTEM_PROMPT_PRESETS = true) as Hall by (vm_compute; reflexivity).
  rewrite forallb_forall in Hall. apply Hall in Hl. simpl in Hl.
  apply orb_true_iff in Hl as [Hl|Hl].
  - apply str_eqb_eq in Hl. contradiction.
  - intros ->. discriminate.
Qed.

(** C9. A system prompt that is returned is never the empty string: the
    empty entry filed under "Custom" is out of reach of the lookup. *)
Theorem resolve_system_prompt_non_empty (mode : str) (custom : option str) (prompt : str) :
  _resolve_system_prompt mode custom = inr prompt -> prompt <> [].
Proof.
  destruct (str_eqb mode (lit "Custom")) eqn:E.
  - apply str_eqb_eq in E. subst mode. rewrite resolve_custom_eq.
    destruct (forallb isspace (or_empty custom)) eqn:Hb; [discriminate|].
    intros H. injection H as <-. intros Hnil.
    apply truthy_nil in Hnil. rewrite truthy_strip, Hb in Hnil. discriminate.
  - apply str_eqb_neq in E. rewrite (resolve_preset_eq _ _ E).
    intros H. injection H as <-. unfold get.
    destruct (lookup SYSTEM_PROMPT_PRESETS mode) as [canned|] eqn:Hl.
    + now apply (presets_non_empty mode).
    + vm_compute. discriminate.
Qed.

Lemma resolve_system_prompt_non_empty_witness :
  _resolve_system_prompt (lit "Custom") (Some (lit " x ")) = inr (lit "x") /\ lit "x" <> [].
Proof.
  assert (H : _resolve_system_prompt (lit "Custom") (Some (lit " x ")) = inr (lit "x"))
    by (vm_compute; reflexivity).
  split; [exact H | exact (resolve_system_prompt_non_empty _ _ _ H)].
Defined.

(** The empty entry is indeed in the table, and only the custom branch
    keeps it from being returned. *)
Example custom_entry_is_empty : lookup SYSTEM_PROMPT_PRESETS (lit "Custom") = Some [].
Proof. vm_compute. reflexivity. Qed.

(** ** User message composition *)

(** The function never raises: the three fallback subscripts succeed, and
    the rest is concatenation. *)
Lemma build_user_message_eq (text : option str) (lang tm st : str) :
  _build_user_message text lang tm st
  = inr ((if truthy (strip (or_empty text))
          then improve_header ++ nl ++ nl ++ strip (or_empty text) ++ nl ++ nl
          else scratch_header ++ nl ++ nl)
         ++ control_block_of lang tm st
              (get LANGUAGE_HINTS lang english_hint)
              (get TARGET_MODEL_HINTS tm sdxl_hint)
              (get PROMPT_STYLE_HINTS st detailed_hint)).
Proof.
  unfold _build_user_message.
  rewrite getitem_english, bind_inr, getitem_sdxl, bind_inr, getitem_detailed, bind_inr.
  cbv zeta. fold (control_block_of lang tm st
                    (get LANGUAGE_HINTS lang english_hint)
                    (get TARGET_MODEL_HINTS tm sdxl_hint)
                    (get PROMPT_STYLE_HINTS st detailed_hint)).
  unfold improve_header, scratch_header.
  destruct (truthy (strip (or_empty text))); simpl ret; rewrite <- ?app_assoc;
    reflexivity.
Qed.



(** The examples of the specification, computed. *)
Example build_user_message_a_cat :
  _build_user_message (Some (lit "a cat")) (lit "english") (lit "sdxl") (lit "Detailed")
  = inr (lit "Improve this prompt for image generation. Keep intent, but increase quality and specificity:"
         ++ nl ++ nl ++ lit "a cat" ++ nl ++ nl
         ++ lit "Generation requirements:" ++ nl
         ++ lit "- Target image model: sdxl" ++ nl
         ++ lit "- Model adaptation note: Use SDXL-friendly descriptive style with clear subject, style, composition, and quality cues." ++ nl
         ++ lit "- Prompt style: Detailed. Provide a detailed, information-rich prompt." ++ nl
         ++ lit "- Output language: english. Return the final prompt in English only." ++ nl
         ++ lit "- Return only the final prompt text with no explanation.").
Proof. vm_compute. reflexivity. Qed.

Example build_user_message_empty :
  _build_user_message (Some (lit "")) (lit "english") (lit "sdxl") (lit "Detailed")
  = inr (lit "No input prompt was provided. Generate a complete high-quality image-generation prompt from scratch."
         ++ nl ++ nl
         ++ lit "Generation requirements:" ++ nl
         ++ lit "- Target image model: sdxl" ++ nl
         ++ lit "- Model adaptation note: Use SDXL-friendly descriptive style with clear subject, style, composition, and quality cues." ++ nl
         ++ lit "- Prompt style: Detailed. Provide a detailed, information-rich prompt." ++ nl
         ++ lit "- Output language: english. Return the final prompt in English only." ++ nl
         ++ lit "- Return only the final prompt text with no explanation.")
  /\ _build_user_message None (lit "english") (lit "sdxl") (lit "Detailed")
     = _build_user_message (Some (lit "")) (lit "english") (lit "sdxl") (lit "Detailed")
  /\ _build_user_message (Some (lit "   ")) (lit "english") (lit "sdxl") (lit "Detailed")
     = _build_user_message (Some (lit "")) (lit "english") (lit "sdxl") (lit "Detailed").
Proof. vm_compute. auto. Qed.

(** The lines of the block for keys that miss their table. *)
Lemma build_user_message_fallbacks (text : option str) (lang tm st : str) :
  exists msg,
    _build_user_message text lang tm st = inr msg
    /\ (~ In lang (keys LANGUAGE_HINTS) ->
        contains msg (nl ++ lit "- Output language: " ++ lang
                      ++ lit ". Return the final prompt in English only." ++ nl) = true)
    /\ (~ In tm (keys TARGET_MODEL_HINTS) ->
        contains msg (nl ++ lit "- Model adaptation note: Use SDXL-friendly descriptive style with clear subject, style, composition, and quality cues." ++ nl) = true)
    /\ (~ In st (keys PROMPT_STYLE_HINTS) ->
        contains msg (nl ++ lit "- Prompt style: " ++ st
                      ++ lit ". Provide a detailed, information-rich prompt." ++ nl) = true).
Proof.
  rewrite build_user_message_eq. eexists. split; [reflexivity|].
  set (head := if truthy (strip (or_empty text))
               then improve_header ++ nl ++ nl ++ strip (or_empty text) ++ nl ++ nl
               else scratch_header ++ nl ++ nl).
  split; [|split]; intros Hout; rewrite (get_missing _ _ _ Hout).
  - replace (lit ". Return the final prompt in English only.")
      with ([46%N] ++ [32%N] ++ english_hint) by (vm_compute; reflexivity).
    apply contains_spec.
    exists (head ++ lit "Generation requirements:" ++ nl
            ++ lit "- Target image model: " ++ tm ++ nl
            ++ lit "- Model adaptation note: " ++ get TARGET_MODEL_HINTS tm sdxl_hint ++ nl
            ++ lit "- Prompt style: " ++ st ++ lit ". "
            ++ get PROMPT_STYLE_HINTS st detailed_hint),
           (lit "- Return only the final prompt text with no explanation.").
    unfold control_block_of. rewrite <- ?app_assoc. reflexivity.
  - replace (lit "- Model adaptation note: Use SDXL-friendly descriptive style with clear subject, style, composition, and quality cues.")
      with (lit "- Model adaptation note: " ++ sdxl_hint) by (vm_compute; reflexivity).
    apply contains_spec.
    exists (head ++ lit "Generation requirements:" ++ nl
            ++ lit "- Target image model: " ++ tm),
           (lit "- Prompt style: " ++ st ++ lit ". "
            ++ get PROMPT_STYLE_HINTS st detailed_hint ++ nl
            ++ lit "- Output language: " ++ lang ++ lit ". "
            ++ get LANGUAGE_HINTS lang english_hint ++ nl
            ++ lit "- Return only the final prompt text with no explanation.").
    unfold control_block_of. rewrite <- ?app_assoc. reflexivity.
  - replace (lit ". Provide a detailed, information-rich prompt.")
      with ([46%N] ++ [32%N] ++ detailed_hint) by (vm_compute; reflexivity).
    apply contains_spec.
    exists (head ++ lit "Generation requirements:" ++ nl
            ++ lit "- Target image model: " ++ tm ++ nl
            ++ lit "- Model adaptation note: " ++ get TARGET_MODEL_HINTS tm sdxl_hint),
           (lit "- Output language: " ++ lang ++ lit ". "
            ++ get LANGUAGE_HINTS lang english_hint ++ nl
            ++ lit "- Return only the final prompt text with no explanation.").
    unfold control_block_of. rewrite <- ?app_assoc. reflexivity.
Qed.

(** C7. Composition of the user message returns a string for every text,
    absent or not, and for every language, target model and style.  A value
    outside a hint table is written into its line as it is, with the hint
    of "english", "sdxl" or "Detailed" next to it. *)
Theorem build_user_message_total (text : option str) (lang tm st : str) :
  exists msg,
    _build_user_message text lang tm st = inr msg
    /\ (~ In lang (keys LANGUAGE_HINTS) ->
        contains msg (nl ++ lit "- Output language: " ++ lang
                      ++ lit ". Return the final prompt in English only." ++ nl) = true)
    /\ (~ In tm (keys TARGET_MODEL_HINTS) ->
        contains msg (nl ++ lit "- Model adaptation note: Use SDXL-friendly descriptive style with clear subject, style, composition, and quality cues." ++ nl) = true)
    /\ (~ In st (keys PROMPT_STYLE_HINTS) ->
        contains msg (nl ++ lit "- Prompt style: " ++ st
                      ++ lit ". Provide a detailed, information-rich prompt." ++ nl) = true).
Proof. exact (build_user_message_fallbacks text lang tm st). Qed.

Lemma build_user_message_total_witness :
  exists msg,
    _build_user_message None (lit "klingon") (lit "dall-e") (lit "Baroque") = inr msg
    /\ contains msg (nl ++ lit "- Output language: klingon. Return the final prompt in English only." ++ nl) = true
    /\ contains msg (nl ++ lit "- Model adaptation note: Use SDXL-friendly descriptive style with clear subject, style, composition, and quality cues." ++ nl) = true
    /\ contains msg (nl ++ lit "- Prompt style: Baroque. Provide a detailed, information-rich prompt." ++ nl) = true.
Proof.
  destruct (build_user_message_total None (lit "klingon") (lit "dall-e") (lit "Baroque"))
    as (msg & Hmsg & Hlang & Htm & Hst).
  exists msg. split; [exact Hmsg|]. repeat split.
  - apply Hlang. vm_compute. intuition discriminate.
  - apply Htm. vm_compute. intuition discriminate.
  - apply Hst. vm_compute. intuition discriminate.
Defined.

(** ** The declared choices and the tables *)

(** C8. Each choice offered for [target_model] (seven), [prompt_style]
    (five), [output_language] (two) and [system_prompt_mode] is a key of its
    table.  Each table has one entry to fall back on, filed under "sdxl",
    "Detailed", "english" and "Improve prompt (default)": the subscript that
    fetches it succeeds, and it is what the composer uses for a key that
    misses the table. *)
Theorem declared_choices_have_entries :
  (List.length (choices_of (lit "target_model")) = 7
   /\ incl (choices_of (lit "target_model")) (keys TARGET_MODEL_HINTS)
   /\ getitem TARGET_MODEL_HINTS (lit "sdxl")
      = inr (lit "Use SDXL-friendly descriptive style with clear subject, style, composition, and quality cues.")
   /\ forall text lang tm st msg,
        _build_user_message text lang tm st = inr msg ->
        ~ In tm (keys TARGET_MODEL_HINTS) ->
        contains msg (nl ++ lit "- Model adaptation note: Use SDXL-friendly descriptive style with clear subject, style, composition, and quality cues." ++ nl) = true)
  /\ (List.length (choices_of (lit "prompt_style")) = 5
      /\ incl (choices_of (lit "prompt_style")) (keys PROMPT_STYLE_HINTS)
      /\ getitem PROMPT_STYLE_HINTS (lit "Detailed")
         = inr (lit "Provide a detailed, information-rich prompt.")
      /\ forall text lang tm st msg,
           _build_user_message text lang tm st = inr msg ->
           ~ In st (keys PROMPT_STYLE_HINTS) ->
           contains msg (nl ++ lit "- Prompt style: " ++ st
                         ++ lit ". Provide a detailed, information-rich prompt." ++ nl) = true)
  /\ (List.length (choices_of (lit "output_language")) = 2
      /\ incl (choices_of (lit "output_language")) (keys LANGUAGE_HINTS)
      /\ getitem LANGUAGE_HINTS (lit "english")
         = inr (lit "Return the final prompt in English only.")
      /\ forall text lang tm st msg,
           _build_user_message text lang tm st = inr msg ->
           ~ In lang (keys LANGUAGE_HINTS) ->
           contains msg (nl ++ lit "- Output language: " ++ lang
                         ++ lit ". Return the final prompt in English only." ++ nl) = true)
  /\ (choices_of (lit "system_prompt_mode") = keys SYSTEM_PROMPT_PRESETS
      /\ List.length (choices_of (lit "system_prompt_mode")) = 6
      /\ getitem SYSTEM_PROMPT_PRESETS (lit "Improve prompt (default)")
         = inr improve_prompt_default
      /\ forall mode custom,
           ~ In mode (keys SYSTEM_PROMPT_PRESETS) ->
           _resolve_system_prompt mode custom = inr improve_prompt_default).
Proof.
  assert (Hfb : forall text lang tm st msg,
             _build_user_message text lang tm st = inr msg ->
             (~ In lang (keys LANGUAGE_HINTS) ->
              contains msg (nl ++ lit "- Output language: " ++ lang
                            ++ lit ". Return the final prompt in English only." ++ nl) = true)
             /\ (~ In tm (keys TARGET_MODEL_HINTS) ->
                 contains msg (nl ++ lit "- Model adaptation note: Use SDXL-friendly descriptive style with clear subject, style, composition, and quality cues." ++ nl) = true)
             /\ (~ In st (keys PROMPT_STYLE_HINTS) ->
                 contains msg (nl ++ lit "- Prompt style: " ++ st
                               ++ lit ". Provide a detailed, information-rich prompt." ++ nl) = true)).
  { intros text lang tm st msg Hmsg.
    destruct (build_user_message_fallbacks text lang tm st) as (msg' & Hmsg' & H).
    rewrite Hmsg in Hmsg'. injection Hmsg' as <-. exact H. }
  split; [|split; [|split]]; (split; [|split; [|split]]);
    try (vm_compute; reflexivity);
    try (apply subset_incl; vm_compute; reflexivity).
  - intros text lang tm st msg Hmsg. exact (proj1 (proj2 (Hfb _ _ _ _ _ Hmsg))).
  - intros text lang tm st msg Hmsg. exact (proj2 (proj2 (Hfb _ _ _ _ _ Hmsg))).
  - intros text lang tm st msg Hmsg. exact (proj1 (Hfb _ _ _ _ _ Hmsg)).
  - intros mode custom Hout. rewrite resolve_preset_eq.
    + f_equal. now apply get_missing.
    + intros ->. apply Hout. vm_compute. tauto.
Qed.

(** A lookup that misses yields the fallback entry, table by table. *)
Lemma lookups_fall_back (key : str) :
  (~ In key (keys TARGET_MODEL_HINTS) -> get TARGET_MODEL_HINTS key sdxl_hint = sdxl_hint)
  /\ (~ In key (keys PROMPT_STYLE_HINTS) -> get PROMPT_STYLE_HINTS key detailed_hint = detailed_hint)
  /\ (~ In key (keys LANGUAGE_HINTS) -> get LANGUAGE_HINTS key english_hint = english_hint)
  /\ (~ In key (keys SYSTEM_PROMPT_PRESETS) ->
      get SYSTEM_PROMPT_PRESETS key improve_prompt_default = improve_prompt_default).
Proof. repeat split; apply get_missing. Qed.

(** The defaults declared for the four inputs are the fallback keys. *)
Example declared_defaults :
  map (fun name => match lookup (required INPUT_TYPES) (lit name) with
                   | Some (COMBO _ default) => default
                   | _ => []
                   end)
      ["target_model"; "prompt_style"; "output_language"; "system_prompt_mode"]%string
  = [lit "sdxl"; lit "Detailed"; lit "english"; lit "Improve prompt (default)"].
Proof. vm_compute. reflexivity. Qed.

(** ** Interaction trees *)

Lemma run_lift {A} (net : Request -> Z -> urlopen_outcome) (r : raising A) :
  run net (lift r) = (r, []).
Proof. now destruct r. Qed.

Lemma run_bind {A B} (net : Request -> Z -> urlopen_outcome) (m : io A) (f : A -> io B) :
  run net (bind m f)
  = match run net m with
    | (inr a, sent) => let (r, sent') := run net (f a) in (r, sent ++ sent')
    | (inl e, sent) => (inl e, sent)
    end.
Proof.
  induction m as [a|e|rq timeout k IH]; simpl.
  - now destruct (run net (f a)).
  - reflexivity.
  - specialize (IH (net rq timeout)). simpl in IH. rewrite IH.
    destruct (run net (k (net rq timeout))) as [[e|a] sent]; [reflexivity|].
    now destruct (run net (f a)).
Qed.

(** ** The API client *)

Section ClientFacts.

Variable json_dumps : json -> str.
Variable encode_utf8 : str -> bytes.
Variable json_loads : str -> raising json.
Variable net : Request -> Z -> urlopen_outcome.

Variables (api_key model : str) (temperature : float) (max_tokens : Z).
Variables (system_prompt user_message : str).

Local Abbreviation request :=
  (req json_dumps encode_utf8 api_key model temperature max_tokens system_prompt user_message).

Local Abbreviation call :=
  (_call_deepseek json_dumps encode_utf8 json_loads
     api_key model temperature max_tokens system_prompt user_message).

(** The subscripts of the source walk the path of the specification. *)
Lemma subscripts_follow_path (raw : str) :
  catch
    (data <- json_loads raw ;;
     choices <- getitem_key data (lit "choices") ;;
     first <- getitem_index choices 0 ;;
     message <- getitem_key first (lit "message") ;;
     content <- getitem_key message (lit "content") ;;
     match content with
     | JStr s =>
         if negb (truthy (strip s))
         then raise (ValueError (lit "Empty response content."))
         else ret (strip s)
     | _ => raise (ValueError (lit "Empty response content."))
     end)
    (fun _ => raise (RuntimeError (lit "Failed to parse DeepSeek response: " ++ raw)))
  = expected_completion (json_loads raw) raw.
Proof.
  unfold expected_completion.
  destruct (json_loads raw) as [e|data]; [reflexivity|].
  rewrite (bind_inr data).
  destruct data as [| | | | |items|top]; try reflexivity.
  unfold content_at, getitem_key at 1, getitem.
  destruct (lookup top (lit "choices")) as [choices|]; [|reflexivity].
  rewrite (bind_inr choices).
  destruct choices as [| | | |s|items|d]; try reflexivity.
  - (* a string: its first character is no dictionary *)
    unfold getitem_index, seq_index.
    destruct s as [|c s]; reflexivity.
  - unfold getitem_index, seq_index.
    destruct items as [|first items]; [reflexivity|].
    change (nth_error (first :: items) (Z.to_nat 0)) with (Some first).
    replace ((0 <? 0)%Z) with false by reflexivity.
    replace ((0 <? 0) || (Z.of_nat (List.length (first :: items)) <=? 0))%Z with false
      by (symmetry; apply orb_false_intro; [reflexivity | apply Z.leb_gt; simpl; lia]).
    rewrite (bind_inr first).
    destruct first as [| | | | |l|entries]; try reflexivity.
    unfold getitem_key at 1, getitem.
    destruct (lookup entries (lit "message")) as [message|]; [|reflexivity].
    rewrite (bind_inr message).
    destruct message as [| | | | |l|fields]; try reflexivity.
    unfold getitem_key, getitem.
    destruct (lookup fields (lit "content")) as [content|]; [|reflexivity].
    rewrite (bind_inr content).
    destruct content as [| | | |s| |]; try reflexivity.
    rewrite truthy_strip, negb_involutive.
    destruct (forallb isspace s); reflexivity.
Qed.

(** One call of [urlopen], and its outcome decides the result. *)
Lemma run_call :
  run net call
  = (match net request 90 with
     | Body raw => expected_completion (json_loads raw) raw
     | HTTPError code fp =>
         match fp with
         | Some (inl raised) => inl raised
         | Some (inr content) =>
             inl (RuntimeError (lit "DeepSeek API HTTP " ++ str_of_int code ++ lit ": "
                                ++ decode_utf8_replace content))
         | None =>
             inl (RuntimeError (lit "DeepSeek API HTTP " ++ str_of_int code ++ lit ": "))
         end
     | URLError reason =>
         inl (RuntimeError (lit "DeepSeek API connection error: " ++ reason))
     | OtherException message =>
         inl (RuntimeError (lit "Unexpected DeepSeek API error: " ++ message))
     end, [request]).
Proof.
  unfold _call_deepseek. cbn [run].
  destruct (net request 90) as [raw|code [[raised|content]|]|reason|message];
    try reflexivity.
  now rewrite run_lift, subscripts_follow_path.
Qed.

(** C5. On an answer with a body, the client returns the trimmed string
    found at choices[0].message.content.  It fails exactly when the body
    does not decode, the path is absent, what it leads to is no string, or
    the string is empty or white space only; the failure is then the
    RuntimeError "Failed to parse DeepSeek response: " followed by the raw
    body. *)
Theorem call_deepseek_extracts_content (raw : str) :
  net request 90 = Body raw ->
  (forall data s,
      json_loads raw = inr data -> content_at data = Some (JStr s) ->
      forallb isspace s = false ->
      fst (run net call) = inr (strip s))
  /\ (forall e,
        fst (run net call) = inl e ->
        e = RuntimeError (lit "Failed to parse DeepSeek response: " ++ raw)
        /\ exists msg, e = RuntimeError msg /\ contains msg raw = true)
  /\ ((exists e, fst (run net call) = inl e)
      <-> (exists e, json_loads raw = inl e)
          \/ exists data,
               json_loads raw = inr data
               /\ (content_at data = None
                   \/ (exists v, content_at data = Some v /\ forall s, v <> JStr s)
                   \/ exists s, content_at data = Some (JStr s)
                                /\ forallb isspace s = true)).
Proof.
  intros Hnet. rewrite run_call, Hnet. cbn [fst]. unfold expected_completion.
  split; [|split].
  - intros data s -> -> ->. reflexivity.
  - intros e He.
    assert (e = parse_failure raw) as ->.
    { destruct (json_loads raw) as [e'|data]; [congruence|].
      destruct (content_at data) as [[| | | |s| |]|]; try congruence.
      destruct (forallb isspace s); congruence. }
    split; [reflexivity|]. eexists. split; [reflexivity|].
    apply contains_spec.
    exists (lit "Failed to parse DeepSeek response: "), []. now rewrite app_nil_r.
  - split.
    + intros [e He].
      destruct (json_loads raw) as [e'|data]; [left; now exists e'|].
      right. exists data. split; [reflexivity|].
      destruct (content_at data) as [v|]; [|now left].
      right.
      destruct v as [| | | |s| |];
        try (left; eexists; split; [reflexivity | discriminate]).
      destruct (forallb isspace s) eqn:Hs; [|discriminate].
      right. now exists s.
    + intros [[e ->]|(data & -> & [->|[(v & -> & Hv)|(s & -> & ->)]])];
        try (eexists; reflexivity).
      destruct v; try (eexists; reflexivity). now destruct (Hv s).
Qed.

(** C6, as the code has it.  When [urlopen] raises an HTTPError whose body
    is read without failure, or that carries no body, the client raises the
    RuntimeError "DeepSeek API HTTP <code>: <body>", where the body is
    decoded as UTF-8 with every part that does not decode replaced by
    U+FFFD, and is empty when there is none.  The message holds the status
    code in decimal and the decoded body; a body that is well-formed UTF-8
    is in it byte for byte. *)
Theorem call_deepseek_http_error (code : Z) (fp : option bytes) :
  net request 90 = HTTPError code (option_map inr fp) ->
  exists msg,
    run net call = (inl (RuntimeError msg), [request])
    /\ msg = lit "DeepSeek API HTTP " ++ str_of_int code ++ lit ": "
             ++ match fp with Some body => decode_utf8_replace body | None => [] end
    /\ contains msg (str_of_int code) = true
    /\ (forall body,
          fp = Some body ->
          contains msg (decode_utf8_replace body) = true
          /\ (is_utf8 body = true -> holds_verbatim msg body = true)).
Proof.
  intros Hnet. rewrite run_call, Hnet.
  exists (lit "DeepSeek API HTTP " ++ str_of_int code ++ lit ": "
          ++ match fp with Some body => decode_utf8_replace body | None => [] end).
  split; [|split; [reflexivity|split]].
  - destruct fp as [body|]; cbn [option_map]; [reflexivity|].
    now rewrite !app_nil_r.
  - apply contains_spec. now eexists _, _.
  - intros body ->. split.
    + apply contains_spec.
      exists (lit "DeepSeek API HTTP " ++ str_of_int code ++ lit ": "), [].
      now rewrite app_nil_r, <- ?app_assoc.
    + intros Hwf. apply str_eqb_eq in Hwf. unfold holds_verbatim.
      rewrite !flat_map_app, Hwf. apply contains_spec.
      exists (flat_map utf8_char (lit "DeepSeek API HTTP ")
              ++ flat_map utf8_char (str_of_int code)
              ++ flat_map utf8_char (lit ": ")), [].
      now rewrite app_nil_r, <- ?app_assoc.
Qed.

(** C10. The payload of the request has the members model, messages,
    temperature and max_tokens, and messages is a list of exactly two
    entries: the system prompt under the role "system", then the user
    message under the role "user", both as they were passed.  It is this
    payload, serialised, that the one request carries. *)
Theorem call_deepseek_payload :
  let p := payload model temperature max_tokens system_prompt user_message in
  match p with JDict members => keys members | _ => [] end
  = [lit "model"; lit "messages"; lit "temperature"; lit "max_tokens"]
  /\ getitem_key p (lit "model") = inr (JStr model)
  /\ getitem_key p (lit "messages")
     = inr (JList [ JDict [ (lit "role", JStr (lit "system"));
                            (lit "content", JStr system_prompt) ];
                    JDict [ (lit "role", JStr (lit "user"));
                            (lit "content", JStr user_message) ] ])
  /\ getitem_key p (lit "temperature") = inr (JFloat temperature)
  /\ getitem_key p (lit "max_tokens") = inr (JInt max_tokens)
  /\ data request = encode_utf8 (json_dumps p)
  /\ (exists k, call = Urlopen request 90 k)
  /\ snd (run net call) = [request].
Proof.
  cbv zeta. repeat split; try reflexivity.
  - now eexists.
  - now rewrite run_call.
Qed.

End ClientFacts.

(** ** The node entry point *)

Section EntryFacts.

Variable json_dumps : json -> str.
Variable encode_utf8 : str -> bytes.
Variable json_loads : str -> raising json.

Variables (api_key : option str) (model : str) (temperature : float) (max_tokens : Z).
Variables (output_language target_model prompt_style system_prompt_mode : str).
Variables (custom_system_prompt text : option str).

Local Abbreviation node :=
  (generate_prompt json_dumps encode_utf8 json_loads api_key model temperature max_tokens
     output_language target_model prompt_style system_prompt_mode
     custom_system_prompt text).

(** C3. With a credential that is absent, empty or white space only the
    node raises the ValueError "api_key is required." at once: the tree
    of the call is that failure and holds no request, so whatever the
    network would answer, nothing is sent. *)
Theorem generate_prompt_requires_api_key :
  forallb isspace (or_empty api_key) = true ->
  node = Raise (ValueError (lit "api_key is required."))
  /\ forall net, run net node = (inl (ValueError (lit "api_key is required.")), []).
Proof.
  intros Hblank.
  assert (node = Raise (ValueError (lit "api_key is required."))) as ->.
  { unfold generate_prompt. cbv zeta. now rewrite truthy_strip, Hblank. }
  split; [reflexivity | intros net; reflexivity].
Qed.

(** With a credential, the composer runs first and the client sends its
    one request with the trimmed credential and the composed texts. *)
Lemma generate_prompt_with_api_key (net : Request -> Z -> urlopen_outcome) :
  forallb isspace (or_empty api_key) = false ->
  run net node
  = match _resolve_system_prompt system_prompt_mode custom_system_prompt with
    | inl e => (inl e, [])
    | inr system_prompt =>
        match _build_user_message text output_language target_model prompt_style with
        | inl e => (inl e, [])
        | inr user_message =>
            match run net (_call_deepseek json_dumps encode_utf8 json_loads
                             (strip (or_empty api_key)) model temperature max_tokens
                             system_prompt user_message) with
            | (inr prompt, sent) =>
                let preview :=
                  lit "[model: " ++ target_model ++ lit "] [style: " ++ prompt_style
                  ++ lit "] [lang: " ++ output_language ++ lit "]" ++ nl ++ nl ++ prompt in
                (inr {| ui_text := [preview]; result := (prompt, preview) |}, sent)
            | (inl e, sent) => (inl e, sent)
            end
        end
    end.
Proof.
  intros Hkey. unfold generate_prompt. cbv zeta. rewrite truthy_strip, Hkey. cbn [negb].
  destruct (_resolve_system_prompt system_prompt_mode custom_system_prompt)
    as [e|system_prompt]; [reflexivity|].
  destruct (_build_user_message text output_language target_model prompt_style)
    as [e|user_message]; [reflexivity|].
  cbn [lift]. change (bind (Pure system_prompt) ?f) with (f system_prompt). cbv beta.
  change (bind (Pure user_message) ?f) with (f user_message). cbv beta.
  rewrite run_bind.
  destruct (run net _) as [[e|prompt] sent]; [reflexivity|].
  cbn. now rewrite app_nil_r.
Qed.

(** X13. The node calls [urlopen] exactly when the credential is present
    and the system prompt resolves; it then calls it once, with the request
    built from the trimmed credential, the resolved system prompt and the
    composed user message. *)
Corollary generate_prompt_requests (net : Request -> Z -> urlopen_outcome) :
  snd (run net node)
  = if forallb isspace (or_empty api_key) then []
    else match _resolve_system_prompt system_prompt_mode custom_system_prompt,
               _build_user_message text output_language target_model prompt_style with
         | inr system_prompt, inr user_message =>
             [req json_dumps encode_utf8 (strip (or_empty api_key)) model temperature
                  max_tokens system_prompt user_message]
         | _, _ => []
         end.
Proof.
  destruct (forallb isspace (or_empty api_key)) eqn:Hkey.
  - unfold generate_prompt. cbv zeta. now rewrite truthy_strip, Hkey.
  - rewrite (generate_prompt_with_api_key net Hkey).
    destruct (_resolve_system_prompt system_prompt_mode custom_system_prompt)
      as [e|system_prompt]; [reflexivity|].
    destruct (_build_user_message text output_language target_model prompt_style)
      as [e|user_message]; [reflexivity|].
    rewrite run_call.
    now destruct (net _ 90%Z) as [raw|code [[raised|content]|]|reason|message];
      try destruct (expected_completion (json_loads raw) raw).
Qed.

End EntryFacts.

(** ** Runs against the sample library *)

Lemma generate_prompt_requires_api_key_witness :
  run (Sample.always (Body (Sample.completion_body (lit "X"))))
      (generate_prompt Sample.json_dumps Sample.encode_utf8 Sample.json_loads
         (Some (lit "   ")) (lit "deepseek-chat") 1.0 512
         (lit "english") (lit "sdxl") (lit "Detailed") (lit "Improve prompt (default)")
         None (Some (lit "a cat")))
  = (inl (ValueError (lit "api_key is required.")), []).
Proof.
  refine (proj2 (generate_prompt_requires_api_key
                   Sample.json_dumps Sample.encode_utf8 Sample.json_loads
                   (Some (lit "   ")) (lit "deepseek-chat") 1.0 512
                   (lit "english") (lit "sdxl") (lit "Detailed")
                   (lit "Improve prompt (default)") None (Some (lit "a cat")) _) _).
  vm_compute. reflexivity.
Defined.

Lemma call_deepseek_extracts_content_witness :
  fst (run (Sample.always (Body (Sample.completion_body (lit "X"))))
           (_call_deepseek Sample.json_dumps Sample.encode_utf8 Sample.json_loads
              (lit "sk-test") (lit "deepseek-chat") 1.0 512
              (lit "You improve prompts.") (lit "a cat")))
  = inr (lit "X").
Proof.
  refine (proj1 (call_deepseek_extracts_content
                   Sample.json_dumps Sample.encode_utf8 Sample.json_loads
                   (Sample.always (Body (Sample.completion_body (lit "X"))))
                   (lit "sk-test") (lit "deepseek-chat") 1.0 512
                   (lit "You improve prompts.") (lit "a cat")
                   (Sample.completion_body (lit "X")) _)
            (JDict [(lit "choices",
                      JList [JDict [(lit "message",
                                      JDict [(lit "content", JStr (lit "X"))])]])])
            (lit "X") _ _ _);
    vm_compute; reflexivity.
Defined.

Lemma call_deepseek_http_error_witness :
  exists msg,
    run (Sample.always (HTTPError 400 (Some (inr (list_byte_of_string "bad request")))))
        (_call_deepseek Sample.json_dumps Sample.encode_utf8 Sample.json_loads
           (lit "sk-test") (lit "deepseek-chat") 1.0 512
           (lit "You improve prompts.") (lit "a cat"))
    = (inl (RuntimeError msg),
       [req Sample.json_dumps Sample.encode_utf8
            (lit "sk-test") (lit "deepseek-chat") 1.0 512
            (lit "You improve prompts.") (lit "a cat")])
    /\ msg = lit "DeepSeek API HTTP 400: bad request"
    /\ contains msg (lit "400") = true
    /\ contains msg (lit "bad request") = true
    /\ holds_verbatim msg (list_byte_of_string "bad request") = true.
Proof.
  destruct (call_deepseek_http_error
              Sample.json_dumps Sample.encode_utf8 Sample.json_loads
              (Sample.always (HTTPError 400 (Some (inr (list_byte_of_string "bad request")))))
              (lit "sk-test") (lit "deepseek-chat") 1.0 512
              (lit "You improve prompts.") (lit "a cat")
              400 (Some (list_byte_of_string "bad request")) eq_refl)
    as (msg & Hrun & Hmsg & Hcode & Hbody).
  exists msg. split; [exact Hrun|]. split; [exact Hmsg|]. split; [exact Hcode|].
  destruct (Hbody _ eq_refl) as [Htext Hbytes]. split; [exact Htext|].
  apply Hbytes. vm_compute. reflexivity.
Defined.

(** C6, as the specification has it, fails on a body that is no UTF-8.  A
    400 answer whose body is the one byte FF is reported as
    "DeepSeek API HTTP 400: " followed by U+FFFD: the source decodes with
    [errors="replace"], and the byte is in no message. *)
Lemma call_deepseek_http_error_not_verbatim :
  fst (run (Sample.always (HTTPError 400 (Some (inr [Byte.xff]))))
           (_call_deepseek Sample.json_dumps Sample.encode_utf8 Sample.json_loads
              (lit "sk-test") (lit "deepseek-chat") 1.0 512
              (lit "You improve prompts.") (lit "a cat")))
  = inl (RuntimeError (lit "DeepSeek API HTTP 400: " ++ [0xFFFD%N]))
  /\ ~ (exists msg,
          fst (run (Sample.always (HTTPError 400 (Some (inr [Byte.xff]))))
                   (_call_deepseek Sample.json_dumps Sample.encode_utf8 Sample.json_loads
                      (lit "sk-test") (lit "deepseek-chat") 1.0 512
                      (lit "You improve prompts.") (lit "a cat")))
          = inl (RuntimeError msg)
          /\ contains msg (lit "400") = true
          /\ holds_verbatim msg [Byte.xff] = true).
Proof.
  split; [vm_compute; reflexivity|].
  intros (msg & Hrun & _ & Hbody).
  vm_compute in Hrun. injection Hrun as <-.
  vm_compute in Hbody. discriminate.
Qed.

(** The other way for C6 to fail: the body of the error cannot be read.
    [e.read()] is called in the handler, where nothing catches what it
    raises, and the exception leaves the client as it is. *)
Example call_deepseek_http_error_unread :
  fst (run (Sample.always (HTTPError 400 (Some (inl IncompleteRead))))
           (_call_deepseek Sample.json_dumps Sample.encode_utf8 Sample.json_loads
              (lit "sk-test") (lit "deepseek-chat") 1.0 512
              (lit "You improve prompts.") (lit "a cat")))
  = inl IncompleteRead.
Proof. vm_compute. reflexivity. Qed.

(** The whole node on the mock answer of the specification, for any
    serialiser: one request with the trimmed credential, the preset and the
    composed message; the trimmed completion as the prompt; the preview
    built around it. *)
Example generate_prompt_on_mock (json_dumps : json -> str) (encode_utf8 : str -> bytes) :
  run (Sample.always (Body (Sample.completion_body (lit " X "))))
      (generate_prompt json_dumps encode_utf8 Sample.json_loads
         (Some (lit " sk-test ")) (lit "deepseek-chat") 1.0 512
         (lit "english") (lit "sdxl") (lit "Detailed") (lit "Anime style")
         None (Some (lit "a cat")))
  = (inr {| ui_text := [lit "[model: sdxl] [style: Detailed] [lang: english]" ++ nl ++ nl ++ lit "X"];
            result := (lit "X",
                       lit "[model: sdxl] [style: Detailed] [lang: english]" ++ nl ++ nl ++ lit "X") |},
     [ {| full_url := lit "https://api.deepseek.com/chat/completions";
          data :=
            encode_utf8
              (json_dumps
                 (JDict
                    [ (lit "model", JStr (lit "deepseek-chat"));
                      (lit "messages",
                        JList
                          [ JDict [ (lit "role", JStr (lit "system"));
                                    (lit "content",
                                      JStr (lit "You improve prompts for anime-style image generation. Enhance character design, line style, palette, mood, and composition. Return only the final prompt text.")) ];
                            JDict [ (lit "role", JStr (lit "user"));
                                    (lit "content",
                                      JStr (lit "Improve this prompt for image generation. Keep intent, but increase quality and specificity:"
                                            ++ nl ++ nl ++ lit "a cat" ++ nl ++ nl
                                            ++ lit "Generation requirements:" ++ nl
                                            ++ lit "- Target image model: sdxl" ++ nl
                                            ++ lit "- Model adaptation note: Use SDXL-friendly descriptive style with clear subject, style, composition, and quality cues." ++ nl
                                            ++ lit "- Prompt style: Detailed. Provide a detailed, information-rich prompt." ++ nl
                                            ++ lit "- Output language: english. Return the final prompt in English only." ++ nl
                                            ++ lit "- Return only the final prompt text with no explanation.")) ] ]);
                      (lit "temperature", JFloat 1.0);
                      (lit "max_tokens", JInt 512) ]));
          headers := [ (lit "Content-Type", lit "application/json");
                       (lit "Authorization", lit "Bearer sk-test") ];
          method := lit "POST" |} ]).
Proof. vm_compute. reflexivity. Qed.

(** Bodies that decode but do not answer the question. *)
Example call_deepseek_rejects :
  forall body,
    In body [ lit "not json";
              lit "[]";
              lit "{}";
              Sample.completion_body (lit "   ");
              lit "{" ++ [0x22%N] ++ lit "choices" ++ [0x22%N] ++ lit ":[]}";
              lit "{" ++ [0x22%N] ++ lit "choices" ++ [0x22%N] ++ lit ":" ++ [0x22%N] ++ lit "abc" ++ [0x22%N] ++ lit "}" ] ->
    fst (run (Sample.always (Body body))
             (_call_deepseek Sample.json_dumps Sample.encode_utf8 Sample.json_loads
                (lit "sk-test") (lit "deepseek-chat") 1.0 512 (lit "s") (lit "u")))
    = inl (parse_failure body).
Proof.
  intros body H. simpl in H.
  repeat (destruct H as [<-|H]; [vm_compute; reflexivity|]). contradiction.
Qed.

(** [str(code)] writes the decimal numeral of the code: read back, the
    numeral is the code. *)
Lemma str_of_int_numeral (n : Z) :
  str_of_int n = lit (NilZero.string_of_int (Z.to_int n))
  /\ option_map Z.of_int (NilZero.int_of_string (NilZero.string_of_int (Z.to_int n)))
     = Some n.
Proof.
  split; [reflexivity|]. rewrite NilZero.isi.
  - simpl. f_equal. apply DecimalZ.of_to.
  - destruct n; simpl; try discriminate.
    intros H. injection H. apply DecimalPos.Unsigned.to_uint_nonnil.
  - destruct n; simpl; try discriminate.
    intros H. injection H. apply DecimalPos.Unsigned.to_uint_nonnil.
Qed.

Example str_of_int_runs :
  str_of_int 400 = lit "400" /\ str_of_int 0 = lit "0"
  /\ str_of_int 503 = lit "503" /\ str_of_int (-1) = lit "-1".
Proof. vm_compute. auto. Qed.

(** * Further properties *)

(** ** Trimmed texts *)

Lemma strip_is_trimmed (s : str) : is_trimmed (strip s) = true.
Proof.
  destruct (strip_spec s) as (pre & suf & _ & _ & _ & Hhead & Hlast).
  unfold is_trimmed. apply andb_true_iff. split.
  - destruct (strip s) as [|c t] eqn:E; [reflexivity|].
    now rewrite (Hhead c t eq_refl).
  - destruct (rev (strip s)) as [|c t] eqn:E; [reflexivity|].
    apply (f_equal (@rev _)) in E. rewrite rev_involutive in E. simpl in E.
    now rewrite (Hlast c (rev t) E).
Qed.

Lemma lstrip_fixed (s : str) :
  match s with c :: _ => isspace c | [] => false end = false -> lstrip s = s.
Proof. destruct s as [|c t]; simpl; [reflexivity|]. now intros ->. Qed.

Lemma strip_trimmed (s : str) : is_trimmed s = true -> strip s = s.
Proof.
  unfold is_trimmed. intros H. apply andb_true_iff in H as [Hhead Hlast].
  apply negb_true_iff in Hhead, Hlast.
  unfold strip, rstrip. rewrite (lstrip_fixed s Hhead), (lstrip_fixed (rev s) Hlast).
  apply rev_involutive.
Qed.

Lemma strip_idempotent (s : str) : strip (strip s) = strip s.
Proof. apply strip_trimmed, strip_is_trimmed. Qed.

Lemma isspace_strip (s : str) : forallb isspace (strip s) = forallb isspace s.
Proof.
  pose proof (truthy_strip (strip s)) as H.
  rewrite strip_idempotent, truthy_strip in H.
  destruct (forallb isspace s), (forallb isspace (strip s)); simpl in H; congruence.
Qed.

(** ** More on the prompt composer *)

(** The presets other than the empty one are texts without white space at
    either end, and are more than white space. *)
Lemma presets_trimmed (mode canned : str) :
  lookup SYSTEM_PROMPT_PRESETS mode = Some canned -> mode <> lit "Custom" ->
  is_trimmed canned = true /\ forallb isspace canned = false.
Proof.
  intros Hl Hmode. apply lookup_Some_In in Hl.
  assert (forallb (fun kv => str_eqb (fst kv) (lit "Custom")
                             || (is_trimmed (snd kv) && negb (forallb isspace (snd kv))))
            SYSTEM_PROMPT_PRESETS = true) as Hall by (vm_compute; reflexivity).
  rewrite forallb_forall in Hall. apply Hall in Hl. simpl in Hl.
  apply orb_true_iff in Hl as [Hl|Hl].
  - apply str_eqb_eq in Hl. contradiction.
  - apply andb_true_iff in Hl as [Ht Hs]. apply negb_true_iff in Hs. now split.
Qed.

(** X1. A system prompt that is returned has no white space at either end,
    and is a fixed point of the custom mode: passed back as the override of
    the mode "Custom" it is returned unchanged. *)
Theorem resolve_system_prompt_trimmed (mode : str) (custom : option str) (prompt : str) :
  _resolve_system_prompt mode custom = inr prompt ->
  is_trimmed prompt = true
  /\ _resolve_system_prompt (lit "Custom") (Some prompt) = inr prompt.
Proof.
  intros H.
  assert (is_trimmed prompt = true /\ forallb isspace prompt = false) as [Ht Hs].
  { destruct (str_eqb mode (lit "Custom")) eqn:E.
    - apply str_eqb_eq in E. subst mode. rewrite resolve_custom_eq in H.
      destruct (forallb isspace (or_empty custom)) eqn:Hb; [discriminate|].
      injection H as <-. split; [apply strip_is_trimmed | now rewrite isspace_strip].
    - apply str_eqb_neq in E. rewrite (resolve_preset_eq _ _ E) in H.
      injection H as <-. unfold get.
      destruct (lookup SYSTEM_PROMPT_PRESETS mode) as [canned|] eqn:Hl.
      + now apply (presets_trimmed mode).
      + vm_compute. auto. }
  split; [exact Ht|].
  rewrite resolve_custom_eq, or_empty_Some, Hs. f_equal. now apply strip_trimmed.
Qed.

Lemma resolve_system_prompt_trimmed_witness :
  is_trimmed (lit "be terse") = true
  /\ _resolve_system_prompt (lit "Custom") (Some (lit "be terse")) = inr (lit "be terse").
Proof.
  refine (resolve_system_prompt_trimmed (lit "Custom") (Some (lit "  be terse ")) _ _).
  vm_compute. reflexivity.
Defined.

(** X2. For a language, target model or style that is a key of its table,
    the line of the requirements block carries the hint filed under that
    key. *)
Theorem build_user_message_table_hints (text : option str) (lang tm st msg : str) :
  _build_user_message text lang tm st = inr msg ->
  (forall hint, In (lang, hint) LANGUAGE_HINTS ->
     contains msg (nl ++ lit "- Output language: " ++ lang ++ lit ". " ++ hint ++ nl) = true)
  /\ (forall hint, In (tm, hint) TARGET_MODEL_HINTS ->
     contains msg (nl ++ lit "- Model adaptation note: " ++ hint ++ nl) = true)
  /\ (forall hint, In (st, hint) PROMPT_STYLE_HINTS ->
     contains msg (nl ++ lit "- Prompt style: " ++ st ++ lit ". " ++ hint ++ nl) = true).
Proof.
  rewrite build_user_message_eq. intros H. injection H as <-.
  set (head := if truthy (strip (or_empty text))
               then improve_header ++ nl ++ nl ++ strip (or_empty text) ++ nl ++ nl
               else scratch_header ++ nl ++ nl).
  split; [|split]; intros hint Hin.
  - rewrite (get_found _ _ _ _ (lookup_In _ _ _ LANGUAGE_HINTS_keys Hin)).
    apply contains_spec.
    exists (head ++ lit "Generation requirements:" ++ nl
            ++ lit "- Target image model: " ++ tm ++ nl
            ++ lit "- Model adaptation note: " ++ get TARGET_MODEL_HINTS tm sdxl_hint ++ nl
            ++ lit "- Prompt style: " ++ st ++ lit ". "
            ++ get PROMPT_STYLE_HINTS st detailed_hint),
           (lit "- Return only the final prompt text with no explanation.").
    unfold control_block_of. rewrite <- ?app_assoc. reflexivity.
  - rewrite (get_found _ _ _ _ (lookup_In _ _ _ TARGET_MODEL_HINTS_keys Hin)).
    apply contains_spec.
    exists (head ++ lit "Generation requirements:" ++ nl
            ++ lit "- Target image model: " ++ tm),
           (lit "- Prompt style: " ++ st ++ lit ". "
            ++ get PROMPT_STYLE_HINTS st detailed_hint ++ nl
            ++ lit "- Output language: " ++ lang ++ lit ". "
            ++ get LANGUAGE_HINTS lang english_hint ++ nl
            ++ lit "- Return only the final prompt text with no explanation.").
    unfold control_block_of. rewrite <- ?app_assoc. reflexivity.
  - rewrite (get_found _ _ _ _ (lookup_In _ _ _ PROMPT_STYLE_HINTS_keys Hin)).
    apply contains_spec.
    exists (head ++ lit "Generation requirements:" ++ nl
            ++ lit "- Target image model: " ++ tm ++ nl
            ++ lit "- Model adaptation note: " ++ get TARGET_MODEL_HINTS tm sdxl_hint),
           (lit "- Output language: " ++ lang ++ lit ". "
            ++ get LANGUAGE_HINTS lang english_hint ++ nl
            ++ lit "- Return only the final prompt text with no explanation.").
    unfold control_block_of. rewrite <- ?app_assoc. reflexivity.
Qed.

Lemma build_user_message_table_hints_witness :
  exists msg,
    _build_user_message None (lit "chinese") (lit "z-image turbo") (lit "Short") = inr msg
    /\ contains msg (nl ++ lit "- Output language: chinese. Return the final prompt in Simplified Chinese only." ++ nl) = true
    /\ contains msg (nl ++ lit "- Model adaptation note: Prioritize concise but high-signal wording with strong visual anchors and minimal redundancy." ++ nl) = true
    /\ contains msg (nl ++ lit "- Prompt style: Short. Keep the output short and compact." ++ nl) = true.
Proof.
  destruct (_build_user_message None (lit "chinese") (lit "z-image turbo") (lit "Short"))
    as [e|msg] eqn:E; [vm_compute in E; discriminate|].
  exists msg. split; [reflexivity|].
  destruct (build_user_message_table_hints _ _ _ _ _ E) as (Hl & Ht & Hs).
  repeat split.
  - apply (Hl (lit "Return the final prompt in Simplified Chinese only.")).
    vm_compute. tauto.
  - apply (Ht (lit "Prioritize concise but high-signal wording with strong visual anchors and minimal redundancy.")).
    vm_compute. tauto.
  - apply (Hs (lit "Keep the output short and compact.")).
    vm_compute. tauto.
Defined.

(** X3. The message keeps the text: for the same language, target model
    and style, two texts give the same message only if they are the same
    after trimming. *)
Theorem build_user_message_keeps_text (a b : option str) (lang tm st : str) :
  _build_user_message a lang tm st = _build_user_message b lang tm st ->
  strip (or_empty a) = strip (or_empty b).
Proof.
  rewrite !build_user_message_eq. intros H. injection H as H.
  destruct (truthy (strip (or_empty a))) eqn:Ha,
           (truthy (strip (or_empty b))) eqn:Hb.
  - apply app_inv_tail in H. cbv iota in H.
    apply (app_inv_head improve_header) in H.
    apply (app_inv_head nl) in H. apply (app_inv_head nl) in H.
    exact (app_inv_tail (nl ++ nl) _ _ H).
  - apply (f_equal (@hd_error _)) in H. vm_compute in H. discriminate.
  - apply (f_equal (@hd_error _)) in H. vm_compute in H. discriminate.
  - apply truthy_nil in Ha, Hb. congruence.
Qed.

Lemma build_user_message_keeps_text_witness :
  strip (or_empty (Some (lit " a cat"))) = strip (or_empty (Some (lit "a cat  "))).
Proof.
  refine (build_user_message_keeps_text _ _ (lit "english") (lit "sdxl") (lit "Detailed") _).
  vm_compute. reflexivity.
Defined.

(** ** More on the API client *)

Section ClientMore.

Variable json_dumps : json -> str.
Variable encode_utf8 : str -> bytes.
Variable json_loads : str -> raising json.
Variable net : Request -> Z -> urlopen_outcome.

Variables (api_key model : str) (temperature : float) (max_tokens : Z).
Variables (system_prompt user_message : str).

Local Abbreviation request :=
  (req json_dumps encode_utf8 api_key model temperature max_tokens system_prompt user_message).

Local Abbreviation call :=
  (_call_deepseek json_dumps encode_utf8 json_loads
     api_key model temperature max_tokens system_prompt user_message).

(** One call of [urlopen], and then a completion that is more than white
    space and trimmed, or a RuntimeError of the client, or what reading
    the body of an HTTPError raised. *)
Lemma run_call_shape :
  exists r,
    run net call = (r, [request])
    /\ match r with
       | inr completion =>
           forallb isspace completion = false /\ is_trimmed completion = true
       | inl e =>
           (exists msg, e = RuntimeError msg
                        /\ existsb (startswith msg) error_prefixes = true)
           \/ (exists code, net request 90 = HTTPError code (Some (inl e)))
       end.
Proof.
  assert (Hparse : forall raw,
             exists msg, parse_failure raw = RuntimeError msg
                         /\ existsb (startswith msg) error_prefixes = true).
  { intros raw. eexists. split; [reflexivity|].
    cbn [existsb error_prefixes]. rewrite (startswith_app _ raw). now rewrite !orb_true_r. }
  rewrite run_call. eexists. split; [reflexivity|].
  destruct (net request 90) as [raw|code [[raised|content]|]|reason|message].
  - unfold expected_completion.
    destruct (json_loads raw) as [e|data]; [left; apply Hparse|].
    destruct (content_at data) as [[| | | |s| |]|]; try (left; apply Hparse).
    destruct (forallb isspace s) eqn:Hs; [left; apply Hparse|].
    split; [now rewrite isspace_strip | apply strip_is_trimmed].
  - right. now exists code.
  - left. eexists. split; [reflexivity|].
    cbn [existsb error_prefixes]. now rewrite startswith_app.
  - left. eexists. split; [reflexivity|].
    cbn [existsb error_prefixes]. now rewrite startswith_app.
  - left. eexists. split; [reflexivity|].
    cbn [existsb error_prefixes].
    rewrite (startswith_app (lit "DeepSeek API connection error: ")).
    now rewrite !orb_true_r.
  - left. eexists. split; [reflexivity|].
    cbn [existsb error_prefixes].
    rewrite (startswith_app (lit "Unexpected DeepSeek API error: ")).
    now rewrite !orb_true_r.
Qed.

(** X5. An exception that leaves the client is a RuntimeError whose
    message starts with one of the four prefixes of the source, with one
    exception: when [urlopen] raised an HTTPError and reading its body
    raises, what the read raised leaves the client as it is, for the read
    is in the handler and under no [try]. *)
Theorem call_deepseek_raises_runtime_error :
  (forall e,
      fst (run net call) = inl e ->
      (exists msg,
          e = RuntimeError msg
          /\ existsb (startswith msg)
               [ lit "DeepSeek API HTTP ";
                 lit "DeepSeek API connection error: ";
                 lit "Unexpected DeepSeek API error: ";
                 lit "Failed to parse DeepSeek response: " ] = true)
      \/ (exists code, net request 90 = HTTPError code (Some (inl e))))
  /\ (forall code raised,
        net request 90 = HTTPError code (Some (inl raised)) ->
        run net call = (inl raised, [request])).
Proof.
  split.
  - intros e H. destruct run_call_shape as (r & Hrun & Hr).
    rewrite Hrun in H. cbn [fst] in H. subst r. exact Hr.
  - intros code raised Hnet. now rewrite run_call, Hnet.
Qed.

(** X6. A completion that the client returns is never empty and has no
    white space at either end. *)
Theorem call_deepseek_completion_trimmed (completion : str) :
  fst (run net call) = inr completion ->
  completion <> [] /\ is_trimmed completion = true.
Proof.
  destruct run_call_shape as (r & Hrun & Hr). rewrite Hrun. cbn [fst].
  intros ->. destruct Hr as [Hs Ht]. split; [|exact Ht].
  intros ->. discriminate.
Qed.

End ClientMore.

(** ** More on the node entry point *)

Lemma strip_or_empty_map (x : option str) :
  strip (or_empty (option_map strip x)) = strip (or_empty x).
Proof.
  destruct x as [s|]; [|reflexivity].
  cbn [option_map]. now rewrite !or_empty_Some, strip_idempotent.
Qed.

Lemma resolve_system_prompt_strip (mode : str) (custom : option str) :
  _resolve_system_prompt mode (option_map strip custom) = _resolve_system_prompt mode custom.
Proof.
  destruct (str_eqb mode (lit "Custom")) eqn:E.
  - apply str_eqb_eq in E. subst mode. rewrite !resolve_custom_eq.
    rewrite strip_or_empty_map.
    replace (forallb isspace (or_empty (option_map strip custom)))
      with (forallb isspace (or_empty custom)); [reflexivity|].
    now rewrite <- (isspace_strip (or_empty custom)),
                <- (isspace_strip (or_empty (option_map strip custom))),
                strip_or_empty_map.
  - apply str_eqb_neq in E. now rewrite !resolve_preset_eq.
Qed.

Lemma build_user_message_strip (text : option str) (lang tm st : str) :
  _build_user_message (option_map strip text) lang tm st = _build_user_message text lang tm st.
Proof. now rewrite !build_user_message_eq, strip_or_empty_map. Qed.

(** System prompt resolution raises nothing but its ValueError. *)
Lemma resolve_system_prompt_raises (mode : str) (custom : option str) (e : exn) :
  _resolve_system_prompt mode custom = inl e -> e = custom_is_empty.
Proof.
  destruct (str_eqb mode (lit "Custom")) eqn:E.
  - apply str_eqb_eq in E. subst mode. rewrite resolve_custom_eq.
    destruct (forallb isspace (or_empty custom)); congruence.
  - apply str_eqb_neq in E. rewrite (resolve_preset_eq _ _ E). discriminate.
Qed.

Section EntryMore.

Variable json_dumps : json -> str.
Variable encode_utf8 : str -> bytes.
Variable json_loads : str -> raising json.

Variables (api_key : option str) (model : str) (temperature : float) (max_tokens : Z).
Variables (output_language target_model prompt_style system_prompt_mode : str).
Variables (custom_system_prompt text : option str).

Local Abbreviation node :=
  (generate_prompt json_dumps encode_utf8 json_loads api_key model temperature max_tokens
     output_language target_model prompt_style system_prompt_mode
     custom_system_prompt text).

(** X7. With a credential, a system prompt that resolves and an answer
    whose body holds a completion, the node returns the trimmed completion
    as the prompt, and as the preview the line "[model: ...] [style: ...]
    [lang: ...]", an empty line and the prompt; the text shown in the
    interface is that preview.  One request was sent, with the trimmed
    credential and the two composed texts. *)
Theorem generate_prompt_returns_preview
    (net : Request -> Z -> urlopen_outcome)
    (system_prompt user_message raw : str) (answer : json) (completion : str) :
  forallb isspace (or_empty api_key) = false ->
  _resolve_system_prompt system_prompt_mode custom_system_prompt = inr system_prompt ->
  _build_user_message text output_language target_model prompt_style = inr user_message ->
  net (req json_dumps encode_utf8 (strip (or_empty api_key)) model temperature max_tokens
           system_prompt user_message) 90%Z = Body raw ->
  json_loads raw = inr answer ->
  content_at answer = Some (JStr completion) ->
  forallb isspace completion = false ->
  run net node
  = (inr {| ui_text :=
              [lit "[model: " ++ target_model ++ lit "] [style: " ++ prompt_style
               ++ lit "] [lang: " ++ output_language ++ lit "]" ++ nl ++ nl
               ++ strip completion];
            result :=
              (strip completion,
               lit "[model: " ++ target_model ++ lit "] [style: " ++ prompt_style
               ++ lit "] [lang: " ++ output_language ++ lit "]" ++ nl ++ nl
               ++ strip completion) |},
     [req json_dumps encode_utf8 (strip (or_empty api_key)) model temperature max_tokens
          system_prompt user_message]).
Proof.
  intros Hkey Hsp Hum Hnet Hloads Hcontent Hs.
  rewrite (generate_prompt_with_api_key _ _ _ _ _ _ _ _ _ _ _ _ _ net Hkey), Hsp, Hum.
  rewrite run_call, Hnet. unfold expected_completion.
  now rewrite Hloads, Hcontent, Hs.
Qed.

(** X8. With a credential, the mode "Custom" and an override that is absent,
    empty or white space only, the node raises the ValueError of the
    resolution and sends no request. *)
Theorem generate_prompt_custom_empty (net : Request -> Z -> urlopen_outcome) :
  forallb isspace (or_empty api_key) = false ->
  system_prompt_mode = lit "Custom" ->
  forallb isspace (or_empty custom_system_prompt) = true ->
  run net node
  = (inl (ValueError (lit "system_prompt_mode is Custom, but custom_system_prompt is empty.")),
     []).
Proof.
  intros Hkey Hmode Hblank.
  rewrite (generate_prompt_with_api_key _ _ _ _ _ _ _ _ _ _ _ _ _ net Hkey), Hmode.
  now rewrite resolve_custom_eq, Hblank.
Qed.

(** X9. Every run of the node ends in one of four ways: an output, after
    exactly one call of [urlopen], whose prompt is not empty and whose
    preview is built from the prompt and shown in the interface; a
    ValueError of the node, with no call made; a RuntimeError of the
    client, after exactly one call; or, after exactly one call that raised
    an HTTPError, what reading the body of that error raised. *)
Theorem generate_prompt_outcomes (net : Request -> Z -> urlopen_outcome) :
  match run net node with
  | (inr out, calls) =>
      (exists rq, calls = [rq])
      /\ fst (result out) <> []
      /\ snd (result out)
         = preview_of target_model prompt_style output_language (fst (result out))
      /\ ui_text out = [snd (result out)]
  | (inl e, calls) =>
      (calls = [] /\ exists msg, e = ValueError msg)
      \/ (exists rq,
             calls = [rq]
             /\ ((exists msg, e = RuntimeError msg)
                 \/ (exists code, net rq 90%Z = HTTPError code (Some (inl e)))))
  end.
Proof.
  destruct (forallb isspace (or_empty api_key)) eqn:Hkey.
  - unfold generate_prompt. cbv zeta. rewrite truthy_strip, Hkey. cbn.
    left. split; [reflexivity | now eexists].
  - rewrite (generate_prompt_with_api_key _ _ _ _ _ _ _ _ _ _ _ _ _ net Hkey).
    destruct (_resolve_system_prompt system_prompt_mode custom_system_prompt)
      as [e|system_prompt] eqn:Hsp.
    { rewrite (resolve_system_prompt_raises _ _ _ Hsp).
      left. split; [reflexivity | now eexists]. }
    rewrite build_user_message_eq.
    destruct (run_call_shape json_dumps encode_utf8 json_loads net
                (strip (or_empty api_key)) model temperature max_tokens
                system_prompt
                ((if truthy (strip (or_empty text))
                  then improve_header ++ nl ++ nl ++ strip (or_empty text) ++ nl ++ nl
                  else scratch_header ++ nl ++ nl)
                 ++ control_block_of output_language target_model prompt_style
                      (get LANGUAGE_HINTS output_language english_hint)
                      (get TARGET_MODEL_HINTS target_model sdxl_hint)
                      (get PROMPT_STYLE_HINTS prompt_style detailed_hint)))
      as (r & Hrun & Hr).
    rewrite Hrun. destruct r as [e|completion].
    + right. eexists. split; [reflexivity|].
      destruct Hr as [(msg & -> & _)|Hr]; [left; now eexists | right; exact Hr].
    + destruct Hr as [Hs _]. cbv zeta. cbn [result ui_text fst snd].
      repeat split; [now eexists | intros ->; discriminate].
Qed.

(** X10. White space around the credential, the custom system prompt and
    the text never matters: the node does the same on the trimmed
    arguments. *)
Theorem generate_prompt_ignores_surrounding_space :
  generate_prompt json_dumps encode_utf8 json_loads
    (option_map strip api_key) model temperature max_tokens
    output_language target_model prompt_style system_prompt_mode
    (option_map strip custom_system_prompt) (option_map strip text)
  = node.
Proof.
  unfold generate_prompt. cbv zeta.
  now rewrite strip_or_empty_map, resolve_system_prompt_strip, build_user_message_strip.
Qed.

(** X11. Whatever its calls of [urlopen] do, the node makes at most one;
    the request it hands over names the fixed address and the method POST,
    with the content type of JSON and, as the bearer token, the trimmed
    credential, which is not empty; the timeout is 90 seconds. *)
Theorem generate_prompt_requests_well_formed :
  requests_bounded 1 node
  /\ all_requests
       (fun rq timeout =>
          timeout = 90%Z
          /\ full_url rq = lit "https://api.deepseek.com/chat/completions"
          /\ method rq = lit "POST"
          /\ headers rq = [ (lit "Content-Type", lit "application/json");
                            (lit "Authorization",
                              lit "Bearer " ++ strip (or_empty api_key)) ]
          /\ strip (or_empty api_key) <> []
          /\ is_trimmed (strip (or_empty api_key)) = true)
       node.
Proof.
  unfold generate_prompt. cbv zeta.
  destruct (truthy (strip (or_empty api_key))) eqn:Hkey; [|now split].
  cbn [negb].
  destruct (_resolve_system_prompt system_prompt_mode custom_system_prompt)
    as [e|system_prompt]; [now split|].
  destruct (_build_user_message text output_language target_model prompt_style)
    as [e|user_message]; [now split|].
  cbn [lift]. change (bind (Pure system_prompt) ?f) with (f system_prompt). cbv beta.
  change (bind (Pure user_message) ?f) with (f user_message). cbv beta.
  unfold _call_deepseek.
  split.
  - cbn [bind Monad_io io_bind requests_bounded]. intros o.
    destruct o as [raw|code [[raised|content]|]|reason|message]; try exact I.
    match goal with |- context [lift ?r] => now destruct r end.
  - cbn [bind Monad_io io_bind all_requests]. split.
    + repeat split; try reflexivity.
      * intros Hnil. rewrite Hnil in Hkey. discriminate.
      * apply strip_is_trimmed.
    + intros o.
      destruct o as [raw|code [[raised|content]|]|reason|message]; try exact I.
      match goal with |- context [lift ?r] => now destruct r end.
Qed.

End EntryMore.

(** ** More on the declared inputs *)

(** X12. Every default that [INPUT_TYPES] declares is a value its own
    declaration admits: the default of a list of choices is one of the
    choices, and a numeric default lies between the declared bounds.  No
    input is declared twice. *)
Theorem declared_defaults_admitted :
  Forall (fun entry => admits_default (snd entry) = true)
    (required INPUT_TYPES ++ optional INPUT_TYPES)
  /\ NoDup (keys (required INPUT_TYPES ++ optional INPUT_TYPES)).
Proof.
  split.
  - apply Forall_forall. intros entry Hin.
    assert (forallb (fun entry => admits_default (snd entry))
              (required INPUT_TYPES ++ optional INPUT_TYPES) = true) as Hall
      by (vm_compute; reflexivity).
    rewrite forallb_forall in Hall. now apply Hall.
  - apply distinct_NoDup. vm_compute. reflexivity.
Qed.

(** ** Further runs against the sample library *)

Lemma call_deepseek_raises_runtime_error_witness :
  run (Sample.always (HTTPError 400 (Some (inl IncompleteRead))))
      (_call_deepseek Sample.json_dumps Sample.encode_utf8 Sample.json_loads
         (lit "sk-test") (lit "deepseek-chat") 1.0 512
         (lit "You improve prompts.") (lit "a cat"))
  = (inl IncompleteRead,
     [req Sample.json_dumps Sample.encode_utf8
          (lit "sk-test") (lit "deepseek-chat") 1.0 512
          (lit "You improve prompts.") (lit "a cat")]).
Proof.
  refine (proj2 (call_deepseek_raises_runtime_error
                   Sample.json_dumps Sample.encode_utf8 Sample.json_loads
                   (Sample.always (HTTPError 400 (Some (inl IncompleteRead))))
                   (lit "sk-test") (lit "deepseek-chat") 1.0 512
                   (lit "You improve prompts.") (lit "a cat"))
            400%Z IncompleteRead _).
  reflexivity.
Defined.

Lemma call_deepseek_completion_trimmed_witness :
  lit "X" <> [] /\ is_trimmed (lit "X") = true.
Proof.
  refine (call_deepseek_completion_trimmed
            Sample.json_dumps Sample.encode_utf8 Sample.json_loads
            (Sample.always (Body (Sample.completion_body (lit " X "))))
            (lit "sk-test") (lit "deepseek-chat") 1.0 512
            (lit "You improve prompts.") (lit "a cat") (lit "X") _).
  vm_compute. reflexivity.
Defined.

Lemma generate_prompt_returns_preview_witness :
  fst (run (Sample.always (Body (Sample.completion_body (lit " X "))))
           (generate_prompt Sample.json_dumps Sample.encode_utf8 Sample.json_loads
              (Some (lit " sk-test ")) (lit "deepseek-chat") 1.0 512
              (lit "english") (lit "sdxl") (lit "Detailed") (lit "Anime style")
              None (Some (lit "a cat"))))
  = inr {| ui_text := [lit "[model: sdxl] [style: Detailed] [lang: english]" ++ nl ++ nl ++ lit "X"];
           result := (lit "X",
                      lit "[model: sdxl] [style: Detailed] [lang: english]" ++ nl ++ nl ++ lit "X") |}.
Proof.
  refine (f_equal fst
            (generate_prompt_returns_preview
               Sample.json_dumps Sample.encode_utf8 Sample.json_loads
               (Some (lit " sk-test ")) (lit "deepseek-chat") 1.0 512
               (lit "english") (lit "sdxl") (lit "Detailed") (lit "Anime style")
               None (Some (lit "a cat"))
               (Sample.always (Body (Sample.completion_body (lit " X "))))
               (match _resolve_system_prompt (lit "Anime style") None with
                | inr prompt => prompt
                | inl _ => []
                end)
               (match _build_user_message (Some (lit "a cat")) (lit "english")
                        (lit "sdxl") (lit "Detailed") with
                | inr message => message
                | inl _ => []
                end)
               (Sample.completion_body (lit " X "))
               (JDict [(lit "choices",
                         JList [JDict [(lit "message",
                                         JDict [(lit "content", JStr (lit " X "))])]])])
               (lit " X ") _ _ _ _ _ _ _));
    vm_compute; reflexivity.
Defined.

Lemma generate_prompt_custom_empty_witness :
  run (Sample.always (Body (Sample.completion_body (lit "X"))))
      (generate_prompt Sample.json_dumps Sample.encode_utf8 Sample.json_loads
         (Some (lit "sk-test")) (lit "deepseek-chat") 1.0 512
         (lit "english") (lit "sdxl") (lit "Detailed") (lit "Custom")
         (Some (lit "   ")) (Some (lit "a cat")))
  = (inl (ValueError (lit "system_prompt_mode is Custom, but custom_system_prompt is empty.")),
     []).
Proof.
  refine (generate_prompt_custom_empty
            Sample.json_dumps Sample.encode_utf8 Sample.json_loads
            (Some (lit "sk-test")) (lit "deepseek-chat") 1.0 512
            (lit "english") (lit "sdxl") (lit "Detailed") (lit "Custom")
            (Some (lit "   ")) (Some (lit "a cat"))
            (Sample.always (Body (Sample.completion_body (lit "X")))) _ _ _);
    vm_compute; reflexivity.
Defined.

(** ** The UTF-8 forms

    [utf8_replace] undoes [utf8_char] on every code point that has a UTF-8
    form, so the bytes of an encoded text are well-formed and decode to
    the text. *)

Lemma utf8_replace_1 (b1 : N) (t : list N) :
  (b1 < 0x80)%N -> utf8_replace (b1 :: t) = b1 :: utf8_replace t.
Proof. intros H. cbn [utf8_replace]. apply N.ltb_lt in H. now rewrite H. Qed.

Lemma between_true (lo hi b : N) : (lo <= b <= hi)%N -> between lo hi b = true.
Proof. intros H. apply andb_true_iff. split; apply N.leb_le; lia. Qed.

Lemma between_above (lo hi b : N) : (hi < b)%N -> between lo hi b = false.
Proof. intros H. apply andb_false_iff. right. apply N.leb_gt. lia. Qed.

Lemma utf8_replace_2 (b1 b2 : N) (t : list N) :
  (0xC2 <= b1 <= 0xDF)%N -> (0x80 <= b2 <= 0xBF)%N ->
  utf8_replace (b1 :: b2 :: t) = ((b1 - 0xC0) * 64 + (b2 - 0x80))%N :: utf8_replace t.
Proof.
  intros H1 H2.
  assert (E1 : (b1 <? 0x80)%N = false) by (apply N.ltb_ge; lia).
  cbn [utf8_replace]. now rewrite E1, !between_true.
Qed.

Lemma utf8_replace_3 (b1 b2 b3 : N) (t : list N) :
  (0xE0 <= b1 <= 0xEF)%N ->
  ((if b1 =? 0xE0 then 0xA0 else 0x80) <= b2 <= (if b1 =? 0xED then 0x9F else 0xBF))%N ->
  (0x80 <= b3 <= 0xBF)%N ->
  utf8_replace (b1 :: b2 :: b3 :: t)
  = ((b1 - 0xE0) * 4096 + (b2 - 0x80) * 64 + (b3 - 0x80))%N :: utf8_replace t.
Proof.
  intros H1 H2 H3.
  assert (E1 : (b1 <? 0x80)%N = false) by (apply N.ltb_ge; lia).
  assert (E2 : between 0xC2 0xDF b1 = false) by (apply between_above; lia).
  cbn [utf8_replace]. now rewrite E1, E2, !between_true.
Qed.

Lemma utf8_replace_4 (b1 b2 b3 b4 : N) (t : list N) :
  (0xF0 <= b1 <= 0xF4)%N ->
  ((if b1 =? 0xF0 then 0x90 else 0x80) <= b2 <= (if b1 =? 0xF4 then 0x8F else 0xBF))%N ->
  (0x80 <= b3 <= 0xBF)%N -> (0x80 <= b4 <= 0xBF)%N ->
  utf8_replace (b1 :: b2 :: b3 :: b4 :: t)
  = ((b1 - 0xF0) * 262144 + (b2 - 0x80) * 4096 + (b3 - 0x80) * 64 + (b4 - 0x80))%N
    :: utf8_replace t.
Proof.
  intros H1 H2 H3 H4.
  assert (E1 : (b1 <? 0x80)%N = false) by (apply N.ltb_ge; lia).
  assert (E2 : between 0xC2 0xDF b1 = false) by (apply between_above; lia).
  assert (E3 : between 0xE0 0xEF b1 = false) by (apply between_above; lia).
  cbn [utf8_replace]. now rewrite E1, E2, E3, !between_true.
Qed.

Section OneCodePoint.

Variable c : char.
Hypothesis scalar : is_scalar c = true.

Lemma scalar_range : (c < 0xD800 \/ (0xE000 <= c /\ c < 0x110000))%N.
Proof.
  unfold is_scalar in scalar. apply orb_true_iff in scalar as [H|H].
  - left. now apply N.ltb_lt.
  - right. apply andb_true_iff in H as [H1 H2].
    split; [now apply N.leb_le | now apply N.ltb_lt].
Qed.

Lemma utf8_replace_char (rest : list N) :
  utf8_replace (utf8_char c ++ rest) = c :: utf8_replace rest.
Proof.
  pose proof scalar_range as Hs. unfold utf8_char.
  pose proof (N.div_mod' c 64) as E1.
  pose proof (N.mod_lt c 64 ltac:(lia)) as B1.
  pose proof (N.div_mod' (c / 64) 64) as E2.
  pose proof (N.mod_lt (c / 64) 64 ltac:(lia)) as B2.
  pose proof (N.div_mod' (c / 4096) 64) as E3.
  pose proof (N.mod_lt (c / 4096) 64 ltac:(lia)) as B3.
  assert (D2 : (c / 4096 = c / 64 / 64)%N) by (rewrite N.Div0.div_div; reflexivity).
  assert (D3 : (c / 262144 = c / 4096 / 64)%N) by (rewrite N.Div0.div_div; reflexivity).
  set (q1 := (c / 64)%N) in *. set (r1 := (c mod 64)%N) in *.
  set (r2 := (q1 mod 64)%N) in *. set (q2 := (c / 4096)%N) in *.
  set (r3 := (q2 mod 64)%N) in *. set (q3 := (c / 262144)%N) in *.
  destruct (N.ltb_spec c 0x80);
    [|destruct (N.ltb_spec c 0x800); [|destruct (N.ltb_spec c 0x10000)]];
    cbn [app].
  - now apply utf8_replace_1.
  - rewrite utf8_replace_2 by lia. f_equal. lia.
  - rewrite utf8_replace_3; [f_equal; lia | lia | | lia].
    destruct (N.eqb_spec (0xE0 + q2) 0xE0), (N.eqb_spec (0xE0 + q2) 0xED); lia.
  - rewrite utf8_replace_4; [f_equal; lia | lia | | lia | lia].
    destruct (N.eqb_spec (0xF0 + q3) 0xF0), (N.eqb_spec (0xF0 + q3) 0xF4); lia.
Qed.

Lemma utf8_char_octets : Forall (fun b => b < 256)%N (utf8_char c).
Proof.
  pose proof scalar_range as Hs. unfold utf8_char.
  pose proof (N.mod_lt c 64 ltac:(lia)) as B1.
  pose proof (N.mod_lt (c / 64) 64 ltac:(lia)) as B2.
  pose proof (N.mod_lt (c / 4096) 64 ltac:(lia)) as B3.
  assert (c < 2048 -> c / 64 < 32)%N as Q1
    by (intros H; apply N.Div0.div_lt_upper_bound; lia).
  assert (c < 65536 -> c / 4096 < 16)%N as Q2
    by (intros H; apply N.Div0.div_lt_upper_bound; lia).
  assert (c / 262144 < 8)%N as Q3 by (apply N.Div0.div_lt_upper_bound; lia).
  destruct (N.ltb_spec c 0x80);
    [|destruct (N.ltb_spec c 0x800); [|destruct (N.ltb_spec c 0x10000)]];
    repeat constructor; lia.
Qed.

End OneCodePoint.

Lemma to_N_octet (n : N) : (n < 256)%N -> Byte.to_N (octet n) = n.
Proof.
  intros H. unfold octet. destruct (Byte.of_N n) as [b|] eqn:E.
  - now apply Byte.to_of_N.
  - apply Byte.of_N_None_iff in E. lia.
Qed.

(** The round trip: a text without surrogates, encoded, is well-formed
    UTF-8 and decodes to itself. *)
Lemma decode_utf8_of (text : str) :
  forallb is_scalar text = true ->
  decode_utf8_replace (utf8_of text) = text /\ is_utf8 (utf8_of text) = true.
Proof.
  intros H.
  assert (Hoct : map Byte.to_N (utf8_of text) = flat_map utf8_char text).
  { unfold utf8_of. rewrite map_map.
    induction text as [|c text IH]; [reflexivity|].
    cbn [forallb] in H. apply andb_true_iff in H as [Hc Ht].
    cbn [flat_map]. rewrite !map_app, (IH Ht). f_equal.
    pose proof (utf8_char_octets c Hc) as Hb.
    induction Hb as [|b l Hb _ IHl]; [reflexivity|].
    cbn [map]. now rewrite to_N_octet, IHl. }
  assert (Hdec : decode_utf8_replace (utf8_of text) = text).
  { unfold decode_utf8_replace. rewrite Hoct. clear Hoct.
    induction text as [|c text IH]; [reflexivity|].
    cbn [forallb] in H. apply andb_true_iff in H as [Hc Ht].
    cbn [flat_map]. now rewrite utf8_replace_char, IH. }
  split; [exact Hdec|].
  unfold is_utf8. rewrite Hdec, Hoct. apply str_eqb_refl.
Qed.

(** The decoder on bytes that are no UTF-8, as Python has them. *)
Example decode_utf8_replace_runs :
  decode_utf8_replace [Byte.xff] = [0xFFFD%N]
  /\ decode_utf8_replace [Byte.xe0; Byte.x80] = [0xFFFD; 0xFFFD]%N
  /\ decode_utf8_replace [Byte.xf0; Byte.x90; Byte.x80] = [0xFFFD%N]
  /\ decode_utf8_replace [Byte.xed; Byte.xa0; Byte.x80] = [0xFFFD; 0xFFFD; 0xFFFD]%N
  /\ decode_utf8_replace [Byte.xc2; Byte.x41] = [0xFFFD; 0x41]%N
  /\ decode_utf8_replace [Byte.xe2; Byte.x82; Byte.xac] = [0x20AC%N]
  /\ decode_utf8_replace [Byte.xf0; Byte.x9f; Byte.x98; Byte.x80] = [0x1F600%N]
  /\ is_utf8 [Byte.xff] = false
  /\ is_utf8 (list_byte_of_string "bad request") = true.
Proof. vm_compute. repeat split. Qed.
